(** * ai-school: the Remotion renderer, the job schema and timeline validation

    A shallow embedding of the renderer service (composition layout, slide
    fades, [renderVideo], the [/render] endpoint), of the SQL migrations
    that define the persisted job schema, and of the generate-stage
    validation of the orchestrator.

    Numbers.  The TypeScript sources compute on JavaScript [number]s.  The
    inputs that reach the renderer are JSON numbers, which are finite; they
    are embedded as rationals ([Q]) and arithmetic on them is exact (rounding
    error and the sign of zero of IEEE doubles are not represented).  The one
    operation of the sources that can leave the finite numbers, the division
    by [fps], returns a [number] that also has the non-finite values.
    [Math.round] returns an integral number and is typed in [Z].

    The exact rationals carry the properties that hold of the structure of
    the code (what is called, in which order, what depends on what, bounds
    that clamping gives).  Where a property is about the value the code
    computes, the renderer is embedded a second time on IEEE binary64 numbers
    ([B64], [Binary64]) and the endpoint on untyped JSON bodies
    ([Json], [Endpoint]). *)

From Stdlib Require Import ZArith QArith Qround Qminmax Lia Lqa.
From Stdlib Require Floats Uint63.
From stdpp Require Import base option list strings gmap pretty.

Local Open Scope Z_scope.

(* ===================================================================== *)
(** ** JavaScript values and built-ins *)
(* ===================================================================== *)

Module JS.

(** A JavaScript number that may be non-finite. *)
Inductive number : Type :=
| Finite (q : Q)
| PosInfinity
| NegInfinity
| NaN.

(** Numeric equality of results: rationals up to [Qeq]. *)
Definition number_eq (a b : number) : Prop :=
  match a, b with
  | Finite x, Finite y => (x == y)%Q
  | PosInfinity, PosInfinity => True
  | NegInfinity, NegInfinity => True
  | NaN, NaN => True
  | _, _ => False
  end.

(** [Math.round(x)]: the nearest integer, a tie going up. *)
Definition Math_round (x : Q) : Z := Qfloor (x + (1 # 2)).

(** [Math.min(a, b)] on finite numbers. *)
Definition Math_min (a b : Q) : Q := Qmin a b.

(** [x / y] on finite numbers: a zero divisor gives [NaN] or an infinity. *)
Definition div (x y : Q) : number :=
  if Qeq_bool y 0 then
    match (x ?= 0)%Q with
    | Eq => NaN
    | Gt => PosInfinity
    | Lt => NegInfinity
    end
  else Finite (x / y).

(** [x < y] on finite numbers, as a boolean. *)
Definition lt (x y : Q) : bool := negb (Qle_bool y x).

(** [x % y] on finite numbers, [y] not zero: the remainder has the sign of
    the dividend. *)
Definition rem (x y : Q) : Q :=
  let quotient := (x / y)%Q in
  let truncated := if Qle_bool 0 quotient then Qfloor quotient else Qceiling quotient in
  (x - y * inject_Z truncated)%Q.

(** Truthiness of a string: only the empty string is falsy. *)
Definition truthy (s : string) : bool :=
  match s with
  | EmptyString => false
  | String _ _ => true
  end.

(** Truthiness of an optional string property: [undefined] is falsy. *)
Definition truthy_opt (o : option string) : bool :=
  match o with
  | Some s => truthy s
  | None => false
  end.

(** [array.reduce((acc, x) => f(acc, x), init)]: a left fold. *)
Definition reduce {A B : Type} (f : B -> A -> B) (init : B) (array : list A) : B :=
  fold_left f array init.

End JS.

(* ===================================================================== *)
(** ** remotion/types.ts *)
(* ===================================================================== *)

Module SlideContent.
Record t : Type := mk {
  title : string;
  bullets : list string;
  visual_prompt : string;
}.
End SlideContent.

Module TimelineSegment.
Record t : Type := mk {
  segment_id : string;
  start_time_seconds : Q;
  duration_seconds : Q;
  slide : SlideContent.t;
  narration_text : string;
  (* Added by backend after asset generation *)
  audio_path : option string;
  image_path : option string;
}.
End TimelineSegment.

Module VideoStyle.
Record t : Type := mk {
  backgroundColor : string;
  primaryColor : string;
  accentColor : string;
  fontFamily : string;
}.
End VideoStyle.

Module RenderRequest.
Record t : Type := mk {
  job_id : string;
  output_path : string;
  fps : Q;
  width : Q;
  height : Q;
  title : string;
  total_duration_seconds : Q;
  segments : list TimelineSegment.t;
  style : option VideoStyle.t;
}.
End RenderRequest.

Module RenderResponse.
Record t : Type := mk {
  success : bool;
  output_path : option string;
  duration_seconds : option JS.number;
  error : option string;
}.
End RenderResponse.

Module VideoCompositionProps.
Record t : Type := mk {
  title : string;
  segments : list TimelineSegment.t;
  style : VideoStyle.t;
}.
End VideoCompositionProps.

Definition DEFAULT_STYLE : VideoStyle.t :=
  {| VideoStyle.backgroundColor := "#FAFAFA";
     VideoStyle.primaryColor := "#1A1A2E";
     VideoStyle.accentColor := "#4A69BD";
     VideoStyle.fontFamily := "Inter, system-ui, sans-serif" |}.

(* ===================================================================== *)
(** ** The remotion package: [interpolate] *)
(* ===================================================================== *)

Module Remotion.

Inductive ExtrapolateType : Type := extend | clamp | identity.

Record InterpolateOptions : Type := {
  extrapolateLeft : ExtrapolateType;
  extrapolateRight : ExtrapolateType;
}.

(** Modelled from the spec: [interpolate] belongs to the remotion package,
    which is not among the sources.  The claims call it "the clamped
    interpolation over frames [a, b]": a linear map of the input range onto
    the output range, where an input left (right) of the range is first
    moved to the nearer end under [clamp], is left where it is under
    [extend] (the package's default), and is returned as it is under
    [identity].  A range that is not strictly increasing is refused
    ([None]: the call throws). *)
Definition interpolate (input : Q) (inputRange outputRange : Q * Q)
    (options : InterpolateOptions) : option Q :=
  let '(inputMin, inputMax) := inputRange in
  let '(outputMin, outputMax) := outputRange in
  if Qle_bool inputMax inputMin then None
  else
    let map (x : Q) : Q :=
      if Qeq_bool outputMin outputMax then outputMin
      else ((x - inputMin) / (inputMax - inputMin) * (outputMax - outputMin) + outputMin)%Q in
    if JS.lt input inputMin then
      match extrapolateLeft options with
      | identity => Some input
      | clamp => Some (map inputMin)
      | extend => Some (map input)
      end
    else if JS.lt inputMax input then
      match extrapolateRight options with
      | identity => Some input
      | clamp => Some (map inputMax)
      | extend => Some (map input)
      end
    else Some (map input).

End Remotion.

(* ===================================================================== *)
(** ** remotion/components/Slide.tsx *)
(* ===================================================================== *)

Module Slide.

Record Props : Type := mkProps {
  content : SlideContent.t;
  style : VideoStyle.t;
  imagePath : option string;
  durationFrames : Z;
}.

(** Fade in animation: [extrapolateLeft] keeps the package's default. *)
Definition opacity (frame : Q) : option Q :=
  Remotion.interpolate frame (0, 15)%Q (0, 1)%Q
    {| Remotion.extrapolateLeft := Remotion.extend;
       Remotion.extrapolateRight := Remotion.clamp |}.

(** Fade out at end. *)
Definition fadeOutOpacity (frame durationFrames : Q) : option Q :=
  Remotion.interpolate frame (durationFrames - 15, durationFrames)%Q (1, 0)%Q
    {| Remotion.extrapolateLeft := Remotion.clamp;
       Remotion.extrapolateRight := Remotion.clamp |}.

(** The opacity of the slide's outer [AbsoluteFill] at [frame], the value
    of [useCurrentFrame()]; [None] when an [interpolate] call throws. *)
Definition finalOpacity (frame durationFrames : Q) : option Q :=
  o ← opacity frame;
  f ← fadeOutOpacity frame durationFrames;
  Some (JS.Math_min o f).

(** The outer [AbsoluteFill] the component returns: its style and whether
    the [Img] child is there ([imagePath && ...]).  The title and bullet
    children do not enter any property below. *)
Record Element : Type := mkElement {
  backgroundColor : string;
  element_opacity : Q;
  image : option string;
}.

Definition Slide (props : Props) (frame : Q) : option Element :=
  finalOpacity ← finalOpacity frame (inject_Z (durationFrames props));
  Some {| backgroundColor := VideoStyle.backgroundColor (style props);
          element_opacity := finalOpacity;
          image := match imagePath props with
                   | Some imagePath => if JS.truthy imagePath then Some imagePath else None
                   | None => None
                   end |}.

(** The staggered animation of the bullets ([content.bullets.map]): the
    bullet at [index] fades in over 15 frames from frame 20 + index * 10. *)
Definition bulletDelay (index : nat) : Q := 20 + inject_Z (Z.of_nat index) * 10.

Definition bulletOpacity (frame : Q) (index : nat) : option Q :=
  Remotion.interpolate frame (bulletDelay index, bulletDelay index + 15)%Q (0, 1)%Q
    {| Remotion.extrapolateLeft := Remotion.clamp;
       Remotion.extrapolateRight := Remotion.clamp |}.

End Slide.

(* ===================================================================== *)
(** ** remotion/Composition.tsx *)
(* ===================================================================== *)

Module Composition.

Record AudioProps : Type := mkAudio {
  src : string;
  volume : Q;
}.

(** One [<Sequence>] element with its two possible children. *)
Record SequenceElement : Type := mkSequence {
  key : string;
  from : Z;
  durationInFrames : Z;
  name : string;
  slide : Slide.Props;
  audio : option AudioProps;
}.

Definition fps : Q := 30.

(** [segments.map((segment, index) => ...)]: the callback reads and
    advances the variable [currentFrame] of the enclosing render, which is
    threaded through the traversal here. *)
Fixpoint map_segments (style : VideoStyle.t) (currentFrame : Z) (index : nat)
    (segments : list TimelineSegment.t) : list SequenceElement :=
  match segments with
  | [] => []
  | segment :: rest =>
      let startFrame := currentFrame in
      let durationFrames :=
        JS.Math_round (TimelineSegment.duration_seconds segment * fps) in
      let currentFrame := currentFrame + durationFrames in
      {| key := TimelineSegment.segment_id segment;
         from := startFrame;
         durationInFrames := durationFrames;
         name := "Segment " +:+ pretty (index + 1)%nat +:+ ": "
                 +:+ SlideContent.title (TimelineSegment.slide segment);
         slide := {| Slide.content := TimelineSegment.slide segment;
                     Slide.style := style;
                     Slide.imagePath := TimelineSegment.image_path segment;
                     Slide.durationFrames := durationFrames |};
         audio := match TimelineSegment.audio_path segment with
                  | Some audio_path =>
                      if JS.truthy audio_path
                      then Some {| src := audio_path; volume := 1 |}
                      else None
                  | None => None
                  end |}
      :: map_segments style currentFrame (S index) rest
  end.

(** The children of the composition's outer [AbsoluteFill]. *)
Definition TeacherTrainingVideo (props : VideoCompositionProps.t) : list SequenceElement :=
  let currentFrame := 0 in
  map_segments (VideoCompositionProps.style props) currentFrame 0%nat
    (VideoCompositionProps.segments props).

(** The frames a segment takes, and the frames of a list of segments. *)
Definition segment_frames (segment : TimelineSegment.t) : Z :=
  JS.Math_round (TimelineSegment.duration_seconds segment * fps).

Definition frames_before (segments : list TimelineSegment.t) : Z :=
  foldr (fun segment total => segment_frames segment + total) 0 segments.


(** Two segments of equal [duration_seconds]. *)
Definition same_duration (a b : TimelineSegment.t) : Prop :=
  (TimelineSegment.duration_seconds a == TimelineSegment.duration_seconds b)%Q.

(** The start times a timeline is consistent with: each segment starts
    where the durations of the segments before it end. *)
Fixpoint starts_consistent (elapsed : Q) (segments : list TimelineSegment.t) : bool :=
  match segments with
  | [] => true
  | segment :: rest =>
      Qeq_bool (TimelineSegment.start_time_seconds segment) elapsed
      && starts_consistent (elapsed + TimelineSegment.duration_seconds segment)%Q rest
  end.

End Composition.

(* ===================================================================== *)
(** ** remotion/Root.tsx *)
(* ===================================================================== *)

Module Root.

(** Default props for preview *)
Definition defaultProps : VideoCompositionProps.t :=
  {| VideoCompositionProps.title := "Teacher Training Preview";
     VideoCompositionProps.segments :=
       [ {| TimelineSegment.segment_id := "seg_001";
            TimelineSegment.start_time_seconds := 0;
            TimelineSegment.duration_seconds := 5;
            TimelineSegment.slide :=
              {| SlideContent.title := "Welcome to Teacher Training";
                 SlideContent.bullets :=
                   ["Learn effective teaching strategies"; "Understand your students"];
                 SlideContent.visual_prompt := "Educational classroom scene" |};
            TimelineSegment.narration_text := "Welcome to this teacher training session.";
            TimelineSegment.audio_path := None;
            TimelineSegment.image_path := None |} ];
     VideoCompositionProps.style := DEFAULT_STYLE |}.

(** The [<Composition>] element the root registers. *)
Record CompositionElement : Type := mkComposition {
  id : string;
  component : VideoCompositionProps.t -> list Composition.SequenceElement;
  durationInFrames : Z;
  fps : Q;
  width : Q;
  height : Q;
  registeredProps : VideoCompositionProps.t;
}.

Definition RemotionRoot : CompositionElement :=
  let fps : Q := 30%Q in
  let durationInFrames :=
    JS.reduce
      (fun total seg => total + JS.Math_round (TimelineSegment.duration_seconds seg * fps))
      0 (VideoCompositionProps.segments defaultProps) in
  {| id := "TeacherTrainingVideo";
     component := Composition.TeacherTrainingVideo;
     durationInFrames := durationInFrames;
     fps := fps;
     width := 1920;
     height := 1080;
     registeredProps := defaultProps |}.

End Root.

(* ===================================================================== *)
(** ** Effects: the console, thrown values, the calls that leave the process *)
(* ===================================================================== *)

Module Effects.

(** What a [throw] or a rejected promise carries. *)
Inductive Thrown : Type :=
| ErrorObject (message : string)
| OtherValue.

(** The lines the renderer writes to the console, by their template. *)
Inductive LogLine : Type :=
| StartingRender (job_id : string) (segments_length : nat)
| Duration (job_id : string) (frames : Z) (seconds : JS.number)
| BundleCreated (job_id : string)
| RenderingVideo (job_id : string)
| RenderProgress (job_id : string) (percent : Z)
| RenderComplete (job_id : string) (output_path : string)
| ReceivedRenderRequest (job_id : string)
| RenderError (job_id : string) (error : Thrown).

Inductive Event : Type :=
| ConsoleLog (line : LogLine)
| ConsoleError (line : LogLine)
| CallBundle (entryPoint : string)
| CallSelectComposition (serveUrl id : string)
| CallRenderMedia (serveUrl outputLocation : string).

Inductive Outcome (A : Type) : Type :=
| Returned (a : A)
| Threw (e : Thrown).
Global Arguments Returned {A} a.
Global Arguments Threw {A} e.

(** An asynchronous computation of the service: it extends the trace of
    events so far and returns or throws. *)
Definition IO (A : Type) : Type := list Event -> Outcome A * list Event.

Global Instance IO_ret : MRet IO := fun A a trace => (Returned a, trace).

Global Instance IO_bind : MBind IO := fun A B k m trace =>
  match m trace with
  | (Returned a, trace') => k a trace'
  | (Threw e, trace') => (Threw e, trace')
  end.

Definition emit (e : Event) : IO unit := fun trace => (Returned tt, trace ++ [e]).

Definition console_log (line : LogLine) : IO unit := emit (ConsoleLog line).
Definition console_error (line : LogLine) : IO unit := emit (ConsoleError line).

(** [await] on an outside call whose outcome is known. *)
Definition await {A : Type} (call : Event) (o : Outcome A) : IO A :=
  fun trace => (o, trace ++ [call]).

(** The point where a pending promise resolves or rejects. *)
Definition settle {A : Type} (o : Outcome A) : IO A := fun trace => (o, trace).

(** [try { body } catch (error) { handler }]. *)
Definition try_catch {A : Type} (body : IO A) (handler : Thrown -> IO A) : IO A :=
  fun trace =>
    match body trace with
    | (Returned a, trace') => (Returned a, trace')
    | (Threw e, trace') => handler e trace'
    end.

(** Run a callback over each element, in order. *)
Fixpoint for_each {A : Type} (f : A -> IO unit) (l : list A) : IO unit :=
  match l with
  | [] => mret tt
  | x :: rest => f x ;; for_each f rest
  end.

(** Run from the empty trace. *)
Definition run {A : Type} (m : IO A) : Outcome A * list Event := m [].

Definition ran_render (trace : list Event) : bool :=
  existsb (fun e => match e with
                    | CallBundle _ | CallSelectComposition _ _ | CallRenderMedia _ _ => true
                    | _ => false
                    end) trace.

End Effects.

(* ===================================================================== *)
(** ** The collaborators of [renderVideo]: Node and the Remotion renderer *)
(* ===================================================================== *)

Module Node.
(** The module context and the [path] and [url] built-ins. *)
Record t : Type := mk {
  __dirname : string;          (* the CommonJS module variable *)
  import_meta_url : string;    (* [import.meta.url] of the ES module *)
  path_resolve : string -> string -> string;
  path_dirname : string -> string;
  fileURLToPath : string -> string;
}.
End Node.

Module Renderer.

(** The composition [selectComposition] resolves to. *)
Record VideoConfig : Type := mkVideoConfig {
  id : string;
  durationInFrames : Z;
  fps : Q;
  width : Q;
  height : Q;
}.

(** The arguments of [renderMedia], [onProgress] apart. *)
Record RenderMediaOptions : Type := mkOptions {
  composition : VideoConfig;
  serveUrl : string;
  codec : string;
  outputLocation : string;
  inputProps : VideoCompositionProps.t;
}.

(** [@remotion/bundler] and [@remotion/renderer].  [renderMedia] reports
    its progress, a list of numbers handed one by one to [onProgress],
    and then resolves or rejects. *)
Record t : Type := mk {
  bundle : string -> Effects.Outcome string;
  selectComposition :
    string -> string -> VideoCompositionProps.t -> Effects.Outcome VideoConfig;
  renderMedia : RenderMediaOptions -> list Q * Effects.Outcome unit;
}.

End Renderer.

Record RenderResult : Type := mkRenderResult {
  outputPath : string;
  durationSeconds : JS.number;
}.

(* ===================================================================== *)
(** ** render/renderVideo.ts, the CommonJS build *)
(* ===================================================================== *)

Module RenderVideoCjs.
Import Effects.

Definition onProgress (job_id : string) (progress : Q) : IO unit :=
  if JS.lt (JS.rem progress 10) (1 # 100) then
    console_log (RenderProgress job_id (JS.Math_round (progress * 100)))
  else mret tt.

Definition renderVideo (node : Node.t) (remotion : Renderer.t)
    (request : RenderRequest.t) : IO RenderResult :=
  let job_id := RenderRequest.job_id request in
  let output_path := RenderRequest.output_path request in
  let fps := RenderRequest.fps request in
  let width := RenderRequest.width request in
  let height := RenderRequest.height request in
  let title := RenderRequest.title request in
  let segments := RenderRequest.segments request in
  let style := default DEFAULT_STYLE (RenderRequest.style request) in
  console_log (StartingRender job_id (length segments)) ;;
  (* Calculate total duration in frames *)
  let totalDurationFrames :=
    JS.reduce
      (fun total seg => total + JS.Math_round (TimelineSegment.duration_seconds seg * fps))
      0 segments in
  console_log (Duration job_id totalDurationFrames
                 (JS.div (inject_Z totalDurationFrames) fps)) ;;
  (* Bundle the Remotion project *)
  let entryPoint := Node.path_resolve node (Node.__dirname node) "../remotion/index.ts" in
  bundleLocation ← await (CallBundle entryPoint) (Renderer.bundle remotion entryPoint);
  console_log (BundleCreated job_id) ;;
  (* Prepare composition props *)
  let inputProps :=
    {| VideoCompositionProps.title := title;
       VideoCompositionProps.segments := segments;
       VideoCompositionProps.style := style |} in
  (* Select the composition *)
  composition ← await (CallSelectComposition bundleLocation "TeacherTrainingVideo")
    (Renderer.selectComposition remotion bundleLocation "TeacherTrainingVideo" inputProps);
  (* Override duration based on our segments *)
  let compositionWithDuration :=
    {| Renderer.id := Renderer.id composition;
       Renderer.durationInFrames := totalDurationFrames;
       Renderer.fps := fps;
       Renderer.width := width;
       Renderer.height := height |} in
  console_log (RenderingVideo job_id) ;;
  (* Render the video *)
  let '(reports, outcome) :=
    Renderer.renderMedia remotion
      {| Renderer.composition := compositionWithDuration;
         Renderer.serveUrl := bundleLocation;
         Renderer.codec := "h264";
         Renderer.outputLocation := output_path;
         Renderer.inputProps := inputProps |} in
  emit (CallRenderMedia bundleLocation output_path) ;;
  for_each (onProgress job_id) reports ;;
  settle outcome ;;
  console_log (RenderComplete job_id output_path) ;;
  mret {| outputPath := output_path;
          durationSeconds := JS.div (inject_Z totalDurationFrames) fps |}.

End RenderVideoCjs.

(* ===================================================================== *)
(** ** render/renderVideo.ts, the ES-module build *)
(* ===================================================================== *)

Module RenderVideoEsm.
Import Effects.

Definition __filename (node : Node.t) : string :=
  Node.fileURLToPath node (Node.import_meta_url node).

Definition __dirname (node : Node.t) : string :=
  Node.path_dirname node (__filename node).

Definition onProgress (job_id : string) (progress : Q) : IO unit :=
  let percent := JS.Math_round (progress * 100) in
  (* Log every 5% progress *)
  if Z.rem percent 5 =? 0 then
    console_log (RenderProgress job_id percent)
  else mret tt.

Definition renderVideo (node : Node.t) (remotion : Renderer.t)
    (request : RenderRequest.t) : IO RenderResult :=
  let job_id := RenderRequest.job_id request in
  let output_path := RenderRequest.output_path request in
  let fps := RenderRequest.fps request in
  let width := RenderRequest.width request in
  let height := RenderRequest.height request in
  let title := RenderRequest.title request in
  let segments := RenderRequest.segments request in
  let style := default DEFAULT_STYLE (RenderRequest.style request) in
  console_log (StartingRender job_id (length segments)) ;;
  (* Calculate total duration in frames *)
  let totalDurationFrames :=
    JS.reduce
      (fun total seg => total + JS.Math_round (TimelineSegment.duration_seconds seg * fps))
      0 segments in
  console_log (Duration job_id totalDurationFrames
                 (JS.div (inject_Z totalDurationFrames) fps)) ;;
  (* Bundle the Remotion project *)
  let entryPoint := Node.path_resolve node (__dirname node) "../remotion/index.ts" in
  bundleLocation ← await (CallBundle entryPoint) (Renderer.bundle remotion entryPoint);
  console_log (BundleCreated job_id) ;;
  (* Prepare composition props *)
  let inputProps :=
    {| VideoCompositionProps.title := title;
       VideoCompositionProps.segments := segments;
       VideoCompositionProps.style := style |} in
  (* Select the composition *)
  composition ← await (CallSelectComposition bundleLocation "TeacherTrainingVideo")
    (Renderer.selectComposition remotion bundleLocation "TeacherTrainingVideo" inputProps);
  (* Override duration based on our segments *)
  let compositionWithDuration :=
    {| Renderer.id := Renderer.id composition;
       Renderer.durationInFrames := totalDurationFrames;
       Renderer.fps := fps;
       Renderer.width := width;
       Renderer.height := height |} in
  console_log (RenderingVideo job_id) ;;
  (* Render the video *)
  let '(reports, outcome) :=
    Renderer.renderMedia remotion
      {| Renderer.composition := compositionWithDuration;
         Renderer.serveUrl := bundleLocation;
         Renderer.codec := "h264";
         Renderer.outputLocation := output_path;
         Renderer.inputProps := inputProps |} in
  emit (CallRenderMedia bundleLocation output_path) ;;
  for_each (onProgress job_id) reports ;;
  settle outcome ;;
  console_log (RenderComplete job_id output_path) ;;
  mret {| outputPath := output_path;
          durationSeconds := JS.div (inject_Z totalDurationFrames) fps |}.

End RenderVideoEsm.

(* ===================================================================== *)
(** ** server.ts: the [/render] endpoint *)
(* ===================================================================== *)

Module Server.
Import Effects.

(** [req.body], the parsed JSON: the cast to [RenderRequest] checks
    nothing, so the three properties the handler tests may be missing. *)
Record RequestBody : Type := mkBody {
  job_id : option string;
  output_path : option string;
  fps : Q;
  width : Q;
  height : Q;
  title : string;
  total_duration_seconds : Q;
  segments : option (list TimelineSegment.t);
  style : option VideoStyle.t;
}.

(** What the handler sends: [res.status(n).json(response)]; [res.json]
    alone sends status 200. *)
Record Reply : Type := mkReply {
  status : Z;
  json : RenderResponse.t;
}.

(** [!request.job_id || !request.output_path || !request.segments]:
    an array is truthy, the empty one too. *)
Definition missing_required (body : RequestBody) : bool :=
  negb (JS.truthy_opt (job_id body))
  || negb (JS.truthy_opt (output_path body))
  || negb (bool_decide (is_Some (segments body))).

(** The body seen at its static type once the test has passed. *)
Definition as_RenderRequest (body : RequestBody) : RenderRequest.t :=
  {| RenderRequest.job_id := default EmptyString (job_id body);
     RenderRequest.output_path := default EmptyString (output_path body);
     RenderRequest.fps := fps body;
     RenderRequest.width := width body;
     RenderRequest.height := height body;
     RenderRequest.title := title body;
     RenderRequest.total_duration_seconds := total_duration_seconds body;
     RenderRequest.segments := default [] (segments body);
     RenderRequest.style := style body |}.

Definition error_message (error : Thrown) : string :=
  match error with
  | ErrorObject message => message
  | OtherValue => "Unknown error"
  end.

(** [app.post('/render', ...)], over the imported [renderVideo]. *)
Definition post_render (renderVideo : RenderRequest.t -> IO RenderResult)
    (body : RequestBody) : IO Reply :=
  if missing_required body then
    let response :=
      {| RenderResponse.success := false;
         RenderResponse.output_path := None;
         RenderResponse.duration_seconds := None;
         RenderResponse.error :=
           Some "Missing required fields: job_id, output_path, segments" |} in
    mret {| status := 400; json := response |}
  else
    let request := as_RenderRequest body in
    console_log (ReceivedRenderRequest (RenderRequest.job_id request)) ;;
    try_catch
      (result ← renderVideo request;
       let response :=
         {| RenderResponse.success := true;
            RenderResponse.output_path := Some (outputPath result);
            RenderResponse.duration_seconds := Some (durationSeconds result);
            RenderResponse.error := None |} in
       mret {| status := 200; json := response |})
      (fun error =>
         console_error (RenderError (RenderRequest.job_id request) error) ;;
         let response :=
           {| RenderResponse.success := false;
              RenderResponse.output_path := None;
              RenderResponse.duration_seconds := None;
              RenderResponse.error := Some (error_message error) |} in
         mret {| status := 500; json := response |}).

(** The three replies the handler can send. *)
Definition bad_request : Reply :=
  {| status := 400;
     json := {| RenderResponse.success := false;
                RenderResponse.output_path := None;
                RenderResponse.duration_seconds := None;
                RenderResponse.error :=
                  Some "Missing required fields: job_id, output_path, segments" |} |}.

Definition ok (result : RenderResult) : Reply :=
  {| status := 200;
     json := {| RenderResponse.success := true;
                RenderResponse.output_path := Some (outputPath result);
                RenderResponse.duration_seconds := Some (durationSeconds result);
                RenderResponse.error := None |} |}.

Definition server_error (error : Thrown) : Reply :=
  {| status := 500;
     json := {| RenderResponse.success := false;
                RenderResponse.output_path := None;
                RenderResponse.duration_seconds := None;
                RenderResponse.error := Some (error_message error) |} |}.

(** The shape of every reply: success comes with status 200, both result
    fields and no error; failure with status 400 or 500, an error and no
    result field. *)
Definition well_shaped (reply : Reply) : Prop :=
  if RenderResponse.success (json reply)
  then status reply = 200
       ∧ is_Some (RenderResponse.output_path (json reply))
       ∧ is_Some (RenderResponse.duration_seconds (json reply))
       ∧ RenderResponse.error (json reply) = None
  else (status reply = 400 ∨ status reply = 500)
       ∧ is_Some (RenderResponse.error (json reply))
       ∧ RenderResponse.output_path (json reply) = None
       ∧ RenderResponse.duration_seconds (json reply) = None.

End Server.

(* ===================================================================== *)
(** ** backend/migrations: the persisted schema *)
(* ===================================================================== *)

Module Sql.

Inductive DataType : Type :=
| VARCHAR (n : nat)
| TIMESTAMP
| INTEGER
| REAL
| TEXT
| JSONB
| EnumType (type_name : string).

Inductive DefaultExpr : Type :=
| NOW
| IntegerLiteral (z : Z)
| StringLiteral (s : string).

Record Column : Type := mkColumn {
  column_name : string;
  data_type : DataType;
  primary_key : bool;
  not_null : bool;
  default_expr : option DefaultExpr;
}.

Record Index : Type := mkIndex {
  index_table : string;
  index_column : string;
  descending : bool;
}.

(** The catalog: enum types with their labels in order, tables with
    their columns in order, indexes. *)
Record Database : Type := mkDatabase {
  types : gmap string (list string);
  tables : gmap string (list Column);
  indexes : gmap string Index;
}.

Definition empty_database : Database :=
  {| types := ∅; tables := ∅; indexes := ∅ |}.

(** A statement runs or raises ([None]). *)
Definition Statement : Type := Database -> option Database.

(** [DO $$ BEGIN CREATE TYPE name AS ENUM (labels);
     EXCEPTION WHEN duplicate_object THEN null; END $$;] *)
Definition create_enum_unless_duplicate (name : string) (labels : list string) : Statement :=
  fun db =>
    match types db !! name with
    | Some _ => Some db
    | None => Some {| types := <[name := labels]> (types db);
                      tables := tables db;
                      indexes := indexes db |}
    end.

(** A column definition is accepted when its enum type exists and a string
    default of an enum column is one of the type's labels. *)
Definition column_ok (db : Database) (c : Column) : bool :=
  match data_type c with
  | EnumType type_name =>
      match types db !! type_name with
      | Some labels =>
          match default_expr c with
          | Some (StringLiteral s) => bool_decide (s ∈ labels)
          | Some _ => false
          | None => true
          end
      | None => false
      end
  | _ => true
  end.

(** [CREATE TABLE IF NOT EXISTS name (columns);] *)
Definition create_table_if_not_exists (name : string) (columns : list Column) : Statement :=
  fun db =>
    match tables db !! name with
    | Some _ => Some db
    | None =>
        if forallb (column_ok db) columns then
          Some {| types := types db;
                  tables := <[name := columns]> (tables db);
                  indexes := indexes db |}
        else None
    end.

Definition has_column (columns : list Column) (name : string) : bool :=
  existsb (fun c => String.eqb (column_name c) name) columns.

(** [ALTER TABLE table ADD COLUMN IF NOT EXISTS column;] *)
Definition add_column_if_not_exists (table : string) (c : Column) : Statement :=
  fun db =>
    match tables db !! table with
    | None => None
    | Some columns =>
        if has_column columns (column_name c) then Some db
        else if column_ok db c then
          Some {| types := types db;
                  tables := <[table := columns ++ [c]]> (tables db);
                  indexes := indexes db |}
        else None
    end.

(** [CREATE INDEX IF NOT EXISTS name ON table(column [DESC]);] *)
Definition create_index_if_not_exists (name : string) (i : Index) : Statement :=
  fun db =>
    match indexes db !! name with
    | Some _ => Some db
    | None =>
        match tables db !! index_table i with
        | Some columns =>
            if has_column columns (index_column i) then
              Some {| types := types db;
                      tables := tables db;
                      indexes := <[name := i]> (indexes db) |}
            else None
        | None => None
        end
    end.

(** A script: its statements in order, stopping at the first error. *)
Fixpoint script (statements : list Statement) : Statement :=
  fun db =>
    match statements with
    | [] => Some db
    | s :: rest => db' ← s db; script rest db'
    end.

Definition column (name : string) (ty : DataType) : Column :=
  {| column_name := name; data_type := ty; primary_key := false;
     not_null := false; default_expr := None |}.

Definition PRIMARY_KEY (c : Column) : Column :=
  {| column_name := column_name c; data_type := data_type c; primary_key := true;
     not_null := true; default_expr := default_expr c |}.

Definition NOT_NULL (c : Column) : Column :=
  {| column_name := column_name c; data_type := data_type c;
     primary_key := primary_key c; not_null := true; default_expr := default_expr c |}.

Definition DEFAULT (e : DefaultExpr) (c : Column) : Column :=
  {| column_name := column_name c; data_type := data_type c;
     primary_key := primary_key c; not_null := not_null c; default_expr := Some e |}.

(** [db'] extends [db]: every enum type is still there with the same
    labels, every table is still there with its columns followed by the
    added ones, every index is still there. *)
Definition extends (db db' : Database) : Prop :=
  (∀ name labels, types db !! name = Some labels → types db' !! name = Some labels)
  ∧ (∀ table columns, tables db !! table = Some columns →
       ∃ added, tables db' !! table = Some (columns ++ added))
  ∧ (∀ name i, indexes db !! name = Some i → indexes db' !! name = Some i).

(** A statement that can be run again: a run that succeeds only extends
    the database and establishes [done]; where [done] holds the statement
    changes nothing; and [done] survives every extension. *)
Record Rerunnable (s : Statement) (done : Database → Prop) : Prop := mkRerunnable {
  establishes : ∀ db db', s db = Some db' → done db' ∧ extends db db';
  nothing_to_do : ∀ db, done db → s db = Some db;
  stable : ∀ db db', done db → extends db db' → done db';
}.

Definition type_exists (name : string) (db : Database) : Prop :=
  is_Some (types db !! name).

Definition table_exists (name : string) (db : Database) : Prop :=
  is_Some (tables db !! name).

Definition column_exists (table name : string) (db : Database) : Prop :=
  ∃ columns, tables db !! table = Some columns ∧ has_column columns name = true.

Definition index_exists (name : string) (db : Database) : Prop :=
  is_Some (indexes db !! name).

End Sql.

Module Migrations.
Import Sql.

(** 001_initial_schema.sql *)
Definition migration_001 : Statement :=
  script [
    (* Create job status enum type *)
    create_enum_unless_duplicate "job_status"
      ["pending"; "processing"; "completed"; "failed"];
    (* Create job stage enum type *)
    create_enum_unless_duplicate "job_stage"
      ["extract"; "generate"; "images"; "tts"; "render"];
    (* Create jobs table *)
    create_table_if_not_exists "jobs" [
      PRIMARY_KEY (column "id" (VARCHAR 36));
      DEFAULT NOW (NOT_NULL (column "created_at" TIMESTAMP));
      DEFAULT NOW (NOT_NULL (column "updated_at" TIMESTAMP));
      column "completed_at" TIMESTAMP;
      (* Status tracking *)
      DEFAULT (StringLiteral "pending") (NOT_NULL (column "status" (EnumType "job_status")));
      column "current_stage" (EnumType "job_stage");
      DEFAULT (IntegerLiteral 0) (column "stage_progress" INTEGER);
      (* Input *)
      NOT_NULL (column "original_filename" (VARCHAR 255));
      NOT_NULL (column "pdf_path" (VARCHAR 512));
      (* Artifacts (paths to generated files) *)
      column "timeline_path" (VARCHAR 512);
      column "audio_path" (VARCHAR 512);
      column "video_path" (VARCHAR 512);
      (* Metadata *)
      column "video_duration_seconds" REAL;
      column "slide_count" INTEGER;
      (* Error tracking *)
      column "error_message" TEXT;
      column "error_stage" (EnumType "job_stage");
      DEFAULT (IntegerLiteral 0) (column "retry_count" INTEGER)
    ];
    (* Create index on status for efficient job listing *)
    create_index_if_not_exists "idx_jobs_status"
      {| index_table := "jobs"; index_column := "status"; descending := false |};
    (* Create index on created_at for sorted listing *)
    create_index_if_not_exists "idx_jobs_created_at"
      {| index_table := "jobs"; index_column := "created_at"; descending := true |}
  ].

(** 002_add_observability.sql *)
Definition migration_002 : Statement :=
  script [
    (* Add timestamp for when current stage started *)
    add_column_if_not_exists "jobs" (column "stage_started_at" TIMESTAMP);
    (* Add JSON field for stage durations *)
    add_column_if_not_exists "jobs"
      (DEFAULT (StringLiteral "{}") (column "stage_durations" JSONB))
  ].

(** 003_add_cancel_column.sql.  The file has one statement; its
    [ALTER TYPE job_status ADD VALUE IF NOT EXISTS 'cancelled'] stands in
    a comment ("For existing PostgreSQL installations, run:") and does not
    run. *)
Definition migration_003 : Statement :=
  script [
    (* Add cancel_requested flag (0 = false, 1 = true for SQLite compatibility) *)
    add_column_if_not_exists "jobs"
      (DEFAULT (IntegerLiteral 0) (column "cancel_requested" INTEGER))
  ].

(** The three files run in the order of their numbers. *)
Definition migrate : Statement :=
  script [migration_001; migration_002; migration_003].

(** The flag encoding the comment of migration 003 gives. *)
Definition flag_of_integer (z : Z) : option bool :=
  if z =? 0 then Some false else if z =? 1 then Some true else None.

Definition find_column (db : Database) (table name : string) : option Column :=
  columns ← tables db !! table;
  List.find (fun c => String.eqb (column_name c) name) columns.

Definition column_names (db : Database) (table : string) : option (list string) :=
  columns ← tables db !! table;
  Some (List.map column_name columns).

(** What holds of a database once all three migrations have run. *)
Definition migrated (db : Database) : Prop :=
  type_exists "job_status" db
  ∧ type_exists "job_stage" db
  ∧ table_exists "jobs" db
  ∧ index_exists "idx_jobs_status" db
  ∧ index_exists "idx_jobs_created_at" db
  ∧ column_exists "jobs" "stage_started_at" db
  ∧ column_exists "jobs" "stage_durations" db
  ∧ column_exists "jobs" "cancel_requested" db.

End Migrations.

(* ===================================================================== *)
(** ** The orchestrator's generate stage *)
(* ===================================================================== *)

Module Orchestrator.

(** Modelled from the spec: the job record, its status and stage values
    (the backend that defines them is not among the sources). *)
Inductive Status : Type := pending | processing | completed | failed | cancelled.

Inductive Stage : Type := extract | generate | images | tts | render.

Record Job : Type := mkJob {
  id : string;
  status : Status;
  current_stage : option Stage;
  timeline_path : option string;
  audio_path : option string;
  video_path : option string;
  error_message : option string;
  error_stage : option Stage;
  retry_count : nat;
  cancel_requested : bool;
}.

(** Modelled from the spec: "total duration within a configured band". *)
Record Band : Type := mkBand {
  min_total_seconds : Q;
  max_total_seconds : Q;
}.

Definition Timeline : Type := list TimelineSegment.t.

Definition total_duration (timeline : Timeline) : Q :=
  foldr (fun segment total => (TimelineSegment.duration_seconds segment + total)%Q) 0%Q timeline.

Fixpoint strictly_increasing (starts : list Q) : bool :=
  match starts with
  | [] => true
  | x :: rest =>
      match rest with
      | [] => true
      | y :: _ => JS.lt x y && strictly_increasing rest
      end
  end.

(** Modelled from the spec: the structural and temporal schema of the
    generate stage (the validator is not among the sources): "segment
    count > 0, non-negative durations, strictly increasing
    start_time_seconds, total duration within a configured band". *)
Definition validate (band : Band) (timeline : Timeline) : bool :=
  (0 <? length timeline)%nat
  && forallb (fun segment => Qle_bool 0 (TimelineSegment.duration_seconds segment)) timeline
  && strictly_increasing (List.map TimelineSegment.start_time_seconds timeline)
  && Qle_bool (min_total_seconds band) (total_duration timeline)
  && Qle_bool (total_duration timeline) (max_total_seconds band).

(** Modelled from the spec: an executor returns the new artifact reference
    or a classified error. *)
Inductive StageResult : Type :=
| Artifact (reference : string)
| StageError (retryable : bool) (message : string).

(** Modelled from the spec: the generate executor validates what the
    collaborator returned; "any validation failure is retryable=false".
    The artifact path is the store's deterministic [{job_id}/{kind}.{ext}]. *)
Definition generate_executor (band : Band) (job : Job) (returned : Timeline) : StageResult :=
  if validate band returned
  then Artifact (id job +:+ "/timeline.json")
  else StageError false "timeline failed validation".

Definition next_stage (s : Stage) : option Stage :=
  match s with
  | extract => Some generate
  | generate => Some images
  | images => Some tts
  | tts => Some render
  | render => None
  end.

Definition record_artifact (s : Stage) (reference : string) (job : Job) : Job :=
  {| id := id job;
     status := status job;
     current_stage := current_stage job;
     timeline_path := match s with generate => Some reference | _ => timeline_path job end;
     audio_path := match s with tts => Some reference | _ => audio_path job end;
     video_path := match s with render => Some reference | _ => video_path job end;
     error_message := error_message job;
     error_stage := error_stage job;
     retry_count := retry_count job;
     cancel_requested := cancel_requested job |}.

(** Modelled from the spec: steps 4 to 6 of the transition algorithm, what
    the orchestrator records once the executor of stage [s] has returned.
    Success records the artifact and advances (after [render]: completed);
    a retryable error below the ceiling counts a retry and leaves the stage;
    any other error is the [failed] state with [error_message] and
    [error_stage]. *)
Definition record_result (ceiling : nat) (s : Stage) (result : StageResult) (job : Job) : Job :=
  match result with
  | Artifact reference =>
      let job := record_artifact s reference job in
      {| id := id job;
         status := match next_stage s with Some _ => processing | None => completed end;
         current_stage := next_stage s;
         timeline_path := timeline_path job;
         audio_path := audio_path job;
         video_path := video_path job;
         error_message := error_message job;
         error_stage := error_stage job;
         retry_count := retry_count job;
         cancel_requested := cancel_requested job |}
  | StageError retryable message =>
      if retryable && (retry_count job <? ceiling)%nat then
        {| id := id job;
           status := status job;
           current_stage := current_stage job;
           timeline_path := timeline_path job;
           audio_path := audio_path job;
           video_path := video_path job;
           error_message := error_message job;
           error_stage := error_stage job;
           retry_count := S (retry_count job);
           cancel_requested := cancel_requested job |}
      else
        {| id := id job;
           status := failed;
           current_stage := None;
           timeline_path := timeline_path job;
           audio_path := audio_path job;
           video_path := video_path job;
           error_message := Some message;
           error_stage := Some s;
           retry_count := retry_count job;
           cancel_requested := cancel_requested job |}
  end.

(** The generate stage of a job, given the timeline the collaborator
    returned. *)
Definition run_generate (band : Band) (ceiling : nat) (job : Job) (returned : Timeline) : Job :=
  record_result ceiling generate (generate_executor band job returned) job.

(** The four ways the claim names in which a timeline is invalid. *)
Definition invalid (band : Band) (timeline : Timeline) : Prop :=
  ¬ (0 < length timeline)%nat
  ∨ (∃ segment, segment ∈ timeline ∧ (TimelineSegment.duration_seconds segment < 0)%Q)
  ∨ (∃ i a b, timeline !! i = Some a ∧ timeline !! S i = Some b
       ∧ ¬ (TimelineSegment.start_time_seconds a < TimelineSegment.start_time_seconds b)%Q)
  ∨ (total_duration timeline < min_total_seconds band)%Q
  ∨ (max_total_seconds band < total_duration timeline)%Q.


End Orchestrator.

(* ===================================================================== *)
(** ** What [renderVideo] is specified to compute *)
(* ===================================================================== *)

Module RenderSpec.
Import Effects.

(** The sum over the segments of round(duration_seconds * fps). *)
Definition sum_frames (fps : Q) (segments : list TimelineSegment.t) : Z :=
  foldr (fun seg total => JS.Math_round (TimelineSegment.duration_seconds seg * fps) + total)
    0 segments.

Definition inputProps_of (request : RenderRequest.t) : VideoCompositionProps.t :=
  {| VideoCompositionProps.title := RenderRequest.title request;
     VideoCompositionProps.segments := RenderRequest.segments request;
     VideoCompositionProps.style := default DEFAULT_STYLE (RenderRequest.style request) |}.

Definition options_of (request : RenderRequest.t) (bundleLocation : string)
    (composition : Renderer.VideoConfig) : Renderer.RenderMediaOptions :=
  {| Renderer.composition :=
       {| Renderer.id := Renderer.id composition;
          Renderer.durationInFrames :=
            sum_frames (RenderRequest.fps request) (RenderRequest.segments request);
          Renderer.fps := RenderRequest.fps request;
          Renderer.width := RenderRequest.width request;
          Renderer.height := RenderRequest.height request |};
     Renderer.serveUrl := bundleLocation;
     Renderer.codec := "h264";
     Renderer.outputLocation := RenderRequest.output_path request;
     Renderer.inputProps := inputProps_of request |}.

(** The first collaborator call that fails, if one does. *)
Definition collaborators (remotion : Renderer.t) (entryPoint : string)
    (request : RenderRequest.t) : Outcome unit :=
  match Renderer.bundle remotion entryPoint with
  | Threw e => Threw e
  | Returned bundleLocation =>
      match Renderer.selectComposition remotion bundleLocation "TeacherTrainingVideo"
              (inputProps_of request) with
      | Threw e => Threw e
      | Returned composition =>
          snd (Renderer.renderMedia remotion (options_of request bundleLocation composition))
      end
  end.

Definition result_of (request : RenderRequest.t) : RenderResult :=
  {| outputPath := RenderRequest.output_path request;
     durationSeconds :=
       JS.div (inject_Z (sum_frames (RenderRequest.fps request)
                           (RenderRequest.segments request)))
         (RenderRequest.fps request) |}.

(** The outcome of a render: the result, or what the failing call threw. *)
Definition outcome_of (remotion : Renderer.t) (entryPoint : string)
    (request : RenderRequest.t) : Outcome RenderResult :=
  match collaborators remotion entryPoint request with
  | Returned _ => Returned (result_of request)
  | Threw e => Threw e
  end.

Definition entryPoint_cjs (node : Node.t) : string :=
  Node.path_resolve node (Node.__dirname node) "../remotion/index.ts".

Definition entryPoint_esm (node : Node.t) : string :=
  Node.path_resolve node (RenderVideoEsm.__dirname node) "../remotion/index.ts".

(** The progress lines each build writes for a list of reports. *)
Definition logs_cjs (progress : Q) : bool := JS.lt (JS.rem progress 10) (1 # 100).

Definition logs_esm (progress : Q) : bool := Z.rem (JS.Math_round (progress * 100)) 5 =? 0.

Definition progress_lines (logs : Q -> bool) (job_id : string) (reports : list Q) :
    list Event :=
  (fun progress => ConsoleLog (RenderProgress job_id (JS.Math_round (progress * 100))))
  <$> filter (fun progress => logs progress = true) reports.

(** The events a render adds to the trace, in order. *)
Definition events_of (logs : Q -> bool) (remotion : Renderer.t) (entryPoint : string)
    (request : RenderRequest.t) : list Event :=
  let job_id := RenderRequest.job_id request in
  [ ConsoleLog (StartingRender job_id (length (RenderRequest.segments request)));
    ConsoleLog (Duration job_id
                  (sum_frames (RenderRequest.fps request) (RenderRequest.segments request))
                  (durationSeconds (result_of request)));
    CallBundle entryPoint ]
  ++ match Renderer.bundle remotion entryPoint with
     | Threw _ => []
     | Returned bundleLocation =>
         [ ConsoleLog (BundleCreated job_id);
           CallSelectComposition bundleLocation "TeacherTrainingVideo" ]
         ++ match Renderer.selectComposition remotion bundleLocation "TeacherTrainingVideo"
                    (inputProps_of request) with
            | Threw _ => []
            | Returned composition =>
                let '(reports, outcome) :=
                  Renderer.renderMedia remotion
                    (options_of request bundleLocation composition) in
                [ ConsoleLog (RenderingVideo job_id);
                  CallRenderMedia bundleLocation (RenderRequest.output_path request) ]
                ++ progress_lines logs job_id reports
                ++ match outcome with
                   | Returned _ =>
                       [ConsoleLog (RenderComplete job_id (RenderRequest.output_path request))]
                   | Threw _ => []
                   end
            end
     end.


Definition is_complete (e : Event) : bool :=
  match e with
  | ConsoleLog (RenderComplete _ _) => true
  | _ => false
  end.

(** The sum of the segments' durations, in seconds. *)
Definition sum_seconds (segments : list TimelineSegment.t) : Q :=
  foldr (fun seg total => (TimelineSegment.duration_seconds seg + total)%Q) 0%Q segments.

End RenderSpec.

(* ===================================================================== *)
(** ** Sample data *)
(* ===================================================================== *)

Module Samples.
Import Effects.

Definition slide (title : string) : SlideContent.t :=
  {| SlideContent.title := title;
     SlideContent.bullets := ["Learn effective teaching strategies"];
     SlideContent.visual_prompt := "Educational classroom scene" |}.

Definition segment (segment_id : string) (start duration : Q)
    (audio_path : option string) : TimelineSegment.t :=
  {| TimelineSegment.segment_id := segment_id;
     TimelineSegment.start_time_seconds := start;
     TimelineSegment.duration_seconds := duration;
     TimelineSegment.slide := slide segment_id;
     TimelineSegment.narration_text := "Welcome to this teacher training session.";
     TimelineSegment.audio_path := audio_path;
     TimelineSegment.image_path := None |}.

(** Three segments of 5, 4 and 6 seconds, start times consistent. *)
Definition three_segments : list TimelineSegment.t :=
  [ segment "seg_001" 0 5 (Some "jobs/j1/seg_001.mp3");
    segment "seg_002" 5 4 (Some "jobs/j1/seg_002.mp3");
    segment "seg_003" 9 6 None ].

(** Two segments; the second claims to start at 100 s, not at 5 s. *)
Definition inconsistent_segments : list TimelineSegment.t :=
  [ segment "seg_001" 0 5 None;
    segment "seg_002" 100 4 None ].

Definition props (segments : list TimelineSegment.t) : VideoCompositionProps.t :=
  {| VideoCompositionProps.title := "Teacher Training Preview";
     VideoCompositionProps.segments := segments;
     VideoCompositionProps.style := DEFAULT_STYLE |}.

Definition request (fps : Q) (total : Q) (segments : list TimelineSegment.t) :
    RenderRequest.t :=
  {| RenderRequest.job_id := "j1";
     RenderRequest.output_path := "jobs/j1/video.mp4";
     RenderRequest.fps := fps;
     RenderRequest.width := 1920;
     RenderRequest.height := 1080;
     RenderRequest.title := "Teacher Training Preview";
     RenderRequest.total_duration_seconds := total;
     RenderRequest.segments := segments;
     RenderRequest.style := None |}.

(** The same frame rate and durations as [request 30 15 three_segments];
    every other property differs. *)
Definition other_request : RenderRequest.t :=
  {| RenderRequest.job_id := "j2";
     RenderRequest.output_path := "jobs/j2/video.mp4";
     RenderRequest.fps := 60 # 2;
     RenderRequest.width := 1280;
     RenderRequest.height := 720;
     RenderRequest.title := "Another title";
     RenderRequest.total_duration_seconds := 999;
     RenderRequest.segments :=
       [ segment "a" 0 (10 # 2) None; segment "b" 7 4 (Some "b.mp3");
         segment "c" 1 6 (Some "c.mp3") ];
     RenderRequest.style :=
       Some {| VideoStyle.backgroundColor := "#000000";
               VideoStyle.primaryColor := "#FFFFFF";
               VideoStyle.accentColor := "#FF0000";
               VideoStyle.fontFamily := "serif" |} |}.

Definition body (job_id : option string) (fps : Q)
    (segments : option (list TimelineSegment.t)) : Server.RequestBody :=
  {| Server.job_id := job_id;
     Server.output_path := Some "jobs/j1/video.mp4";
     Server.fps := fps;
     Server.width := 1920;
     Server.height := 1080;
     Server.title := "Teacher Training Preview";
     Server.total_duration_seconds := 15;
     Server.segments := segments;
     Server.style := None |}.

(** A module context whose two ways to the module directory agree. *)
Definition node : Node.t :=
  {| Node.__dirname := "/app/dist/render";
     Node.import_meta_url := "file:///app/dist/render/renderVideo.js";
     Node.path_resolve := fun dir rel => dir +:+ "/" +:+ rel;
     Node.path_dirname := fun _ => "/app/dist/render";
     Node.fileURLToPath := fun _ => "/app/dist/render/renderVideo.js" |}.

(** Collaborators that succeed and report progress four times. *)
Definition remotion : Renderer.t :=
  {| Renderer.bundle := fun _ => Returned "/tmp/bundle";
     Renderer.selectComposition := fun _ id _ =>
       Returned {| Renderer.id := id; Renderer.durationInFrames := 150;
                   Renderer.fps := 30; Renderer.width := 1920; Renderer.height := 1080 |};
     Renderer.renderMedia := fun _ => ([0; 3 # 100; 1 # 2; 1]%Q, Returned tt) |}.

(** Collaborators whose render call rejects. *)
Definition failing_remotion : Renderer.t :=
  {| Renderer.bundle := fun _ => Returned "/tmp/bundle";
     Renderer.selectComposition := Renderer.selectComposition remotion;
     Renderer.renderMedia := fun _ => ([0]%Q, Threw (ErrorObject "render failed")) |}.

(** A job that has reached the generate stage. *)
Definition job : Orchestrator.Job :=
  {| Orchestrator.id := "j1";
     Orchestrator.status := Orchestrator.processing;
     Orchestrator.current_stage := Some Orchestrator.generate;
     Orchestrator.timeline_path := None;
     Orchestrator.audio_path := None;
     Orchestrator.video_path := None;
     Orchestrator.error_message := None;
     Orchestrator.error_stage := None;
     Orchestrator.retry_count := 0;
     Orchestrator.cancel_requested := false |}.

Definition band : Orchestrator.Band :=
  {| Orchestrator.min_total_seconds := 5; Orchestrator.max_total_seconds := 600 |}.

(** Start times that go back: 5 s, then 0 s. *)
Definition backwards_timeline : Orchestrator.Timeline :=
  [ segment "seg_001" 5 5 None; segment "seg_002" 0 4 None ].

End Samples.

(* ===================================================================== *)
(** ** IEEE binary64: the numbers as the code computes them *)
(* ===================================================================== *)

(** The modules above idealise JavaScript numbers as exact rationals.  The
    modules from here on compute on binary64 floating-point numbers, as the
    code does, and are used wherever a property depends on the value of a
    product, a sum or a quotient. *)

Module B64.
Import PrimFloat FloatOps SpecFloat.
Local Open Scope float_scope.

Definition two52 : float := 4503599627370496.

(** Below 2^52 in magnitude a number is finite and need not be integral;
    from 2^52 on, every number is integral (or is not finite). *)
Definition below_two52 (x : float) : bool := abs x <? two52.

(** [Math.floor(x)]: a zero of either sign, an integer from 2^52 on, [NaN]
    and the infinities are returned as they are.  Adding and taking away
    2^52 rounds to an integer. *)
Definition Math_floor (x : float) : float :=
  if (x =? 0) || negb (below_two52 x) then x
  else
    let r := if 0 <? x then (x + two52) - two52 else (x - two52) + two52 in
    if x <? r then r - 1 else r.

(** [Math.round(x)]: the nearest integer, a tie going up; the sign of [x]
    is kept when the result is zero; a zero of either sign, [NaN] and the
    infinities are returned as they are. *)
Definition Math_round (x : float) : float :=
  if (x =? 0) || negb (below_two52 x) then x
  else
    let f := Math_floor x in
    let r := if x - f <? 0.5 then f else f + 1 in
    if (r =? 0) && (x <? 0) then -0 else r.

(** A whole number as a number. *)
Definition of_nat (n : nat) : float := of_uint63 (Uint63.of_Z (Z.of_nat n)).

(** The exact value of a finite number. *)
Definition to_Q (x : float) : option Q :=
  match Prim2SF x with
  | S754_zero _ => Some 0%Q
  | S754_finite s m e =>
      let magnitude : Q :=
        match e with
        | Z0 => inject_Z (Zpos m)
        | Zpos p => inject_Z (Zpos m * 2 ^ Zpos p)
        | Zneg p => Zpos m # (2 ^ p)
        end in
      Some (if s then (- magnitude)%Q else magnitude)
  | S754_infinity _ => None
  | S754_nan => None
  end.

(** [x % 10 < c].  The remainder of a finite number is exact, so it is
    taken on the exact values; the remainder of [NaN] or of an infinity is
    [NaN], which is below nothing. *)
Definition rem_10_below (x c : float) : bool :=
  match to_Q x, to_Q c with
  | Some p, Some bound => JS.lt (JS.rem p 10) bound
  | _, _ => false
  end.

(** Truthiness of a number: zero (of either sign) and [NaN] are falsy. *)
Definition truthy (x : float) : bool := negb ((x =? 0) || is_nan x).

End B64.

(* ===================================================================== *)
(** ** Traces over any kind of event *)
(* ===================================================================== *)

Module Trace.
Import Effects.

Definition IO (E A : Type) : Type := list E -> Outcome A * list E.

Global Instance IO_ret (E : Type) : MRet (IO E) := fun A a trace => (Returned a, trace).

Global Instance IO_bind (E : Type) : MBind (IO E) := fun A B k m trace =>
  match m trace with
  | (Returned a, trace') => k a trace'
  | (Threw e, trace') => (Threw e, trace')
  end.

Definition emit {E : Type} (e : E) : IO E unit := fun trace => (Returned tt, trace ++ [e]).

Definition settle {E A : Type} (o : Outcome A) : IO E A := fun trace => (o, trace).

Definition await {E A : Type} (call : E) (o : Outcome A) : IO E A :=
  fun trace => (o, trace ++ [call]).

Definition try_catch {E A : Type} (body : IO E A) (handler : Thrown -> IO E A) : IO E A :=
  fun trace =>
    match body trace with
    | (Returned a, trace') => (Returned a, trace')
    | (Threw e, trace') => handler e trace'
    end.

Fixpoint for_each {E A : Type} (f : A -> IO E unit) (l : list A) : IO E unit :=
  match l with
  | [] => mret tt
  | x :: rest => f x ;; for_each f rest
  end.

End Trace.

(* ===================================================================== *)
(** ** The renderer on binary64 numbers *)
(* ===================================================================== *)

Module Binary64.
Import PrimFloat Effects.

(** remotion/types.ts *)
Module TimelineSegment.
Record t : Type := mk {
  segment_id : string;
  start_time_seconds : float;
  duration_seconds : float;
  slide : SlideContent.t;
  narration_text : string;
  audio_path : option string;
  image_path : option string;
}.
End TimelineSegment.

Module RenderRequest.
Record t : Type := mk {
  job_id : string;
  output_path : string;
  fps : float;
  width : float;
  height : float;
  title : string;
  total_duration_seconds : float;
  segments : list TimelineSegment.t;
  style : option VideoStyle.t;
}.
End RenderRequest.

Module VideoCompositionProps.
Record t : Type := mk {
  title : string;
  segments : list TimelineSegment.t;
  style : VideoStyle.t;
}.
End VideoCompositionProps.

(** remotion/Composition.tsx *)
Module Composition.

Record AudioProps : Type := mkAudio {
  src : string;
  volume : float;
}.

Record SlideProps : Type := mkSlide {
  content : SlideContent.t;
  slide_style : VideoStyle.t;
  imagePath : option string;
  durationFrames : float;
}.

Record SequenceElement : Type := mkSequence {
  key : string;
  from : float;
  durationInFrames : float;
  name : string;
  slide : SlideProps;
  audio : option AudioProps;
}.

Definition fps : float := 30.

Fixpoint map_segments (style : VideoStyle.t) (currentFrame : float) (index : nat)
    (segments : list TimelineSegment.t) : list SequenceElement :=
  match segments with
  | [] => []
  | segment :: rest =>
      let startFrame := currentFrame in
      let durationFrames :=
        B64.Math_round (TimelineSegment.duration_seconds segment * fps)%float in
      let currentFrame := (currentFrame + durationFrames)%float in
      {| key := TimelineSegment.segment_id segment;
         from := startFrame;
         durationInFrames := durationFrames;
         name := "Segment " +:+ pretty (index + 1)%nat +:+ ": "
                 +:+ SlideContent.title (TimelineSegment.slide segment);
         slide := {| content := TimelineSegment.slide segment;
                     slide_style := style;
                     imagePath := TimelineSegment.image_path segment;
                     durationFrames := durationFrames |};
         audio := match TimelineSegment.audio_path segment with
                  | Some audio_path =>
                      if JS.truthy audio_path
                      then Some {| src := audio_path; volume := 1 |}
                      else None
                  | None => None
                  end |}
      :: map_segments style currentFrame (S index) rest
  end.

Definition TeacherTrainingVideo (props : VideoCompositionProps.t) : list SequenceElement :=
  let currentFrame := 0%float in
  map_segments (VideoCompositionProps.style props) currentFrame 0%nat
    (VideoCompositionProps.segments props).

End Composition.

(** The collaborators of renderVideo. *)
Module Renderer.

Record VideoConfig : Type := mkVideoConfig {
  id : string;
  durationInFrames : float;
  fps : float;
  width : float;
  height : float;
}.

Record RenderMediaOptions : Type := mkOptions {
  composition : VideoConfig;
  serveUrl : string;
  codec : string;
  outputLocation : string;
  inputProps : VideoCompositionProps.t;
}.

Record t : Type := mk {
  bundle : string -> Outcome string;
  selectComposition :
    string -> string -> VideoCompositionProps.t -> Outcome VideoConfig;
  renderMedia : RenderMediaOptions -> list float * Outcome unit;
}.

End Renderer.

Record RenderResult : Type := mkRenderResult {
  outputPath : string;
  durationSeconds : float;
}.

Inductive LogLine : Type :=
| StartingRender (job_id : string) (segments_length : nat)
| Duration (job_id : string) (frames seconds : float)
| BundleCreated (job_id : string)
| RenderingVideo (job_id : string)
| RenderProgress (job_id : string) (percent : float)
| RenderComplete (job_id : string) (output_path : string).

(** The console lines and the calls that leave the process, each call with
    the arguments it is given. *)
Inductive Event : Type :=
| ConsoleLog (line : LogLine)
| CallBundle (entryPoint : string)
| CallSelectComposition (serveUrl id : string) (inputProps : VideoCompositionProps.t)
| CallRenderMedia (options : Renderer.RenderMediaOptions).

Definition console_log (line : LogLine) : Trace.IO Event unit :=
  Trace.emit (ConsoleLog line).

(** render/renderVideo.ts, the first build. *)
Definition onProgress (job_id : string) (progress : float) : Trace.IO Event unit :=
  if B64.rem_10_below progress 0.01 then
    console_log (RenderProgress job_id (B64.Math_round (progress * 100)%float))
  else mret tt.

Definition renderVideo (node : Node.t) (remotion : Renderer.t)
    (request : RenderRequest.t) : Trace.IO Event RenderResult :=
  let job_id := RenderRequest.job_id request in
  let output_path := RenderRequest.output_path request in
  let fps := RenderRequest.fps request in
  let width := RenderRequest.width request in
  let height := RenderRequest.height request in
  let title := RenderRequest.title request in
  let segments := RenderRequest.segments request in
  let style := default DEFAULT_STYLE (RenderRequest.style request) in
  console_log (StartingRender job_id (length segments)) ;;
  (* Calculate total duration in frames *)
  let totalDurationFrames :=
    JS.reduce
      (fun total seg =>
         (total + B64.Math_round (TimelineSegment.duration_seconds seg * fps))%float)
      0%float segments in
  console_log (Duration job_id totalDurationFrames (totalDurationFrames / fps)%float) ;;
  (* Bundle the Remotion project *)
  let entryPoint := Node.path_resolve node (Node.__dirname node) "../remotion/index.ts" in
  bundleLocation ← Trace.await (CallBundle entryPoint) (Renderer.bundle remotion entryPoint);
  console_log (BundleCreated job_id) ;;
  (* Prepare composition props *)
  let inputProps :=
    {| VideoCompositionProps.title := title;
       VideoCompositionProps.segments := segments;
       VideoCompositionProps.style := style |} in
  (* Select the composition *)
  composition ←
    Trace.await (CallSelectComposition bundleLocation "TeacherTrainingVideo" inputProps)
      (Renderer.selectComposition remotion bundleLocation "TeacherTrainingVideo" inputProps);
  (* Override duration based on our segments *)
  let compositionWithDuration :=
    {| Renderer.id := Renderer.id composition;
       Renderer.durationInFrames := totalDurationFrames;
       Renderer.fps := fps;
       Renderer.width := width;
       Renderer.height := height |} in
  console_log (RenderingVideo job_id) ;;
  (* Render the video *)
  let options :=
    {| Renderer.composition := compositionWithDuration;
       Renderer.serveUrl := bundleLocation;
       Renderer.codec := "h264";
       Renderer.outputLocation := output_path;
       Renderer.inputProps := inputProps |} in
  let '(reports, outcome) := Renderer.renderMedia remotion options in
  Trace.emit (CallRenderMedia options) ;;
  Trace.for_each (onProgress job_id) reports ;;
  Trace.settle outcome ;;
  console_log (RenderComplete job_id output_path) ;;
  mret {| outputPath := output_path;
          durationSeconds := (totalDurationFrames / fps)%float |}.

(** What renderVideo is specified to compute: the frames of the segments,
    added up from 0 in their order. *)
Definition total_frames (fps : float) (segments : list TimelineSegment.t) : float :=
  fold_left
    (fun total seg =>
       (total + B64.Math_round (TimelineSegment.duration_seconds seg * fps))%float)
    segments 0%float.

Definition inputProps_of (request : RenderRequest.t) : VideoCompositionProps.t :=
  {| VideoCompositionProps.title := RenderRequest.title request;
     VideoCompositionProps.segments := RenderRequest.segments request;
     VideoCompositionProps.style := default DEFAULT_STYLE (RenderRequest.style request) |}.

Definition options_of (request : RenderRequest.t) (bundleLocation : string)
    (composition : Renderer.VideoConfig) : Renderer.RenderMediaOptions :=
  {| Renderer.composition :=
       {| Renderer.id := Renderer.id composition;
          Renderer.durationInFrames :=
            total_frames (RenderRequest.fps request) (RenderRequest.segments request);
          Renderer.fps := RenderRequest.fps request;
          Renderer.width := RenderRequest.width request;
          Renderer.height := RenderRequest.height request |};
     Renderer.serveUrl := bundleLocation;
     Renderer.codec := "h264";
     Renderer.outputLocation := RenderRequest.output_path request;
     Renderer.inputProps := inputProps_of request |}.

(** The first collaborator call that fails, if one does. *)
Definition collaborators (remotion : Renderer.t) (entryPoint : string)
    (request : RenderRequest.t) : Outcome unit :=
  match Renderer.bundle remotion entryPoint with
  | Threw e => Threw e
  | Returned bundleLocation =>
      match Renderer.selectComposition remotion bundleLocation "TeacherTrainingVideo"
              (inputProps_of request) with
      | Threw e => Threw e
      | Returned composition =>
          snd (Renderer.renderMedia remotion (options_of request bundleLocation composition))
      end
  end.

Definition entryPoint (node : Node.t) : string :=
  Node.path_resolve node (Node.__dirname node) "../remotion/index.ts".

(** The compositions handed to renderMedia in a trace. *)
Definition compositions_rendered (trace : list Event) : list Renderer.VideoConfig :=
  omap (fun e => match e with
                 | CallRenderMedia options => Some (Renderer.composition options)
                 | _ => None
                 end) trace.

(** The frames a list of durations adds up to, from 0 in order. *)
Definition frames_of_durations (fps : float) (durations : list float) : float :=
  fold_left (fun total d => (total + B64.Math_round (d * fps))%float) durations 0%float.

(** Whether durations of 5, 4 and 6 seconds come to 15 seconds at [n]
    frames per second. *)
Definition fifteen_at (n : nat) : bool :=
  Leibniz.eqb
    (frames_of_durations (B64.of_nat n) [5; 4; 6]%float / B64.of_nat n)%float 15%float.

(** Sample data. *)
Definition segment (segment_id : string) (start duration : float) : TimelineSegment.t :=
  {| TimelineSegment.segment_id := segment_id;
     TimelineSegment.start_time_seconds := start;
     TimelineSegment.duration_seconds := duration;
     TimelineSegment.slide := Samples.slide segment_id;
     TimelineSegment.narration_text := "Welcome to this teacher training session.";
     TimelineSegment.audio_path := Some ("jobs/j1/" +:+ segment_id +:+ ".mp3");
     TimelineSegment.image_path := None |}.

Definition three_segments : list TimelineSegment.t :=
  [ segment "seg_001" 0 5; segment "seg_002" 5 4; segment "seg_003" 9 6 ].

Definition request (fps : float) (segments : list TimelineSegment.t) : RenderRequest.t :=
  {| RenderRequest.job_id := "j1";
     RenderRequest.output_path := "jobs/j1/video.mp4";
     RenderRequest.fps := fps;
     RenderRequest.width := 1920;
     RenderRequest.height := 1080;
     RenderRequest.title := "Teacher Training Preview";
     RenderRequest.total_duration_seconds := 15;
     RenderRequest.segments := segments;
     RenderRequest.style := None |}.

Definition remotion : Renderer.t :=
  {| Renderer.bundle := fun _ => Returned "/tmp/bundle";
     Renderer.selectComposition := fun _ id _ =>
       Returned {| Renderer.id := id; Renderer.durationInFrames := 150;
                   Renderer.fps := 30; Renderer.width := 1920; Renderer.height := 1080 |};
     Renderer.renderMedia := fun _ => ([0; 0.5; 1]%float, Returned tt) |}.

End Binary64.

(* ===================================================================== *)
(** ** JSON values *)
(* ===================================================================== *)

Module Json.
Import PrimFloat.

(** What [JSON.parse] yields. *)
Inductive value : Type :=
| JNull
| JBool (b : bool)
| JNumber (x : float)
| JString (s : string)
| JArray (items : list value)
| JObject (members : list (string * value)).

(** Truthiness: [null], [false], zero, [NaN] and the empty string are
    falsy; every array and every object is truthy. *)
Definition truthy (v : value) : bool :=
  match v with
  | JNull => false
  | JBool b => b
  | JNumber x => B64.truthy x
  | JString s => JS.truthy s
  | JArray _ => true
  | JObject _ => true
  end.

(** [object.key] on an object's own members: [None] is [undefined].  A
    parsed object has every key once; in a list that repeats a key the first
    entry stands for it. *)
Fixpoint member (members : list (string * value)) (key : string) : option value :=
  match members with
  | [] => None
  | (k, v) :: rest => if String.eqb k key then Some v else member rest key
  end.

(** [!o] for a property that may be [undefined]. *)
Definition not (o : option value) : bool :=
  match o with
  | Some v => negb (truthy v)
  | None => true
  end.

(** The value as [JSON.stringify] writes it and a client parses it back: a
    number that is not finite becomes [null], a zero loses its sign. *)
Fixpoint on_the_wire (v : value) : value :=
  match v with
  | JNull => JNull
  | JBool b => JBool b
  | JNumber x =>
      if is_finite x then (if (x =? 0)%float then JNumber 0 else JNumber x) else JNull
  | JString s => JString s
  | JArray items => JArray (List.map on_the_wire items)
  | JObject members => JObject (List.map (fun kv => (fst kv, on_the_wire (snd kv))) members)
  end.

End Json.

(* ===================================================================== *)
(** ** server.ts on the wire: the [/render] endpoint over any JSON body *)
(* ===================================================================== *)

Module Endpoint.
Import PrimFloat Effects Json.

(** [req.body] as [express.json()] leaves it: in its strict mode the parser
    accepts an object or an array and nothing else.  The cast to
    [RenderRequest] checks nothing. *)
Inductive Body : Type :=
| BodyObject (members : list (string * value))
| BodyArray (items : list value).

(** [request.key]: an array has none of the three properties. *)
Definition property (body : Body) (key : string) : option value :=
  match body with
  | BodyObject members => member members key
  | BodyArray _ => None
  end.

(** What renderVideo resolves to, for a request of any shape: [outputPath]
    is the request's [output_path], a value since the guard has found it
    truthy, and [durationSeconds] is the quotient of two numbers, a number
    whatever the request holds. *)
Record RenderResult : Type := mkRenderResult {
  outputPath : value;
  durationSeconds : float;
}.

Inductive Event : Type :=
| ReceivedRenderRequest (job_id : value)
| RenderError (job_id : value) (error : Thrown)
| Rendering (e : Binary64.Event).

(** The status line and the JSON text of the reply, the latter as the
    value a client parses. *)
Record Reply : Type := mkReply {
  status : Z;
  json : value;
}.

(** [!request.job_id || !request.output_path || !request.segments] *)
Definition missing_required (body : Body) : bool :=
  Json.not (property body "job_id")
  || Json.not (property body "output_path")
  || Json.not (property body "segments").

Definition error_message (error : Thrown) : string :=
  match error with
  | ErrorObject message => message
  | OtherValue => "Unknown error"
  end.

Definition bad_request : Reply :=
  {| status := 400;
     json := on_the_wire
               (JObject [ ("success", JBool false);
                          ("error",
                           JString "Missing required fields: job_id, output_path, segments") ]) |}.

Definition ok (result : RenderResult) : Reply :=
  {| status := 200;
     json := on_the_wire
               (JObject [ ("success", JBool true);
                          ("output_path", outputPath result);
                          ("duration_seconds", JNumber (durationSeconds result)) ]) |}.

Definition server_error (error : Thrown) : Reply :=
  {| status := 500;
     json := on_the_wire
               (JObject [ ("success", JBool false);
                          ("error", JString (error_message error)) ]) |}.

(** [app.post('/render', ...)], over the imported [renderVideo]. *)
Definition post_render (renderVideo : Body -> Trace.IO Event RenderResult)
    (body : Body) : Trace.IO Event Reply :=
  let request := body in
  if missing_required request then
    mret bad_request
  else
    Trace.emit (ReceivedRenderRequest (default JNull (property request "job_id"))) ;;
    Trace.try_catch
      (result ← renderVideo request;
       mret (ok result))
      (fun error =>
         Trace.emit (RenderError (default JNull (property request "job_id")) error) ;;
         mret (server_error error)).

(** The member of a reply's JSON object. *)
Definition reply_member (reply : Reply) (key : string) : option value :=
  match json reply with
  | JObject members => member members key
  | _ => None
  end.


(** The shape of a reply: a success has status 200, an [output_path] and a
    [duration_seconds] that is a finite number or [null], and no [error];
    a failure has status 400 or 500, an [error] string and neither result
    member. *)
Definition well_shaped (reply : Reply) : Prop :=
  match reply_member reply "success" with
  | Some (JBool true) =>
      status reply = 200
      ∧ is_Some (reply_member reply "output_path")
      ∧ (reply_member reply "duration_seconds" = Some JNull
         ∨ ∃ x, reply_member reply "duration_seconds" = Some (JNumber x)
                ∧ is_finite x = true)
      ∧ reply_member reply "error" = None
  | Some (JBool false) =>
      (status reply = 400 ∨ status reply = 500)
      ∧ (∃ message, reply_member reply "error" = Some (JString message))
      ∧ reply_member reply "output_path" = None
      ∧ reply_member reply "duration_seconds" = None
  | _ => False
  end.




End Endpoint.

(* ===================================================================== *)
(** ** The stages downstream of the timeline *)
(* ===================================================================== *)

Module Pipeline.
Import Effects Orchestrator.





















End Pipeline.

(* ===================================================================== *)
(** * Properties *)
(* ===================================================================== *)

(** ** Numbers *)

Section NumberFacts.

Lemma Math_round_proper (x y : Q) : (x == y)%Q → JS.Math_round x = JS.Math_round y.
Proof.
  intros Hxy. unfold JS.Math_round. apply Qfloor_comp. now rewrite Hxy.
Qed.

Lemma Math_round_integer (z : Z) : JS.Math_round (inject_Z z) = z.
Proof.
  unfold JS.Math_round.
  apply Z.le_antisymm.
  - assert (H : (Qfloor (inject_Z z + (1 # 2)) < z + 1)%Z); [| lia].
    rewrite Zlt_Qlt.
    eapply Qle_lt_trans; [apply Qfloor_le |].
    rewrite inject_Z_plus. change (inject_Z 1) with 1%Q. lra.
  - rewrite <- (Qfloor_Z z) at 1. apply Qfloor_resp_le. lra.
Qed.

Lemma number_eq_refl (a : JS.number) : JS.number_eq a a.
Proof. destruct a; simpl; [reflexivity | exact I ..]. Qed.

Lemma div_proper (x x' y y' : Q) :
  (x == x')%Q → (y == y')%Q → JS.number_eq (JS.div x y) (JS.div x' y').
Proof.
  intros Hx Hy. unfold JS.div.
  assert (Hb : Qeq_bool y 0 = Qeq_bool y' 0).
  { apply eq_true_iff_eq. rewrite !Qeq_bool_iff. now rewrite Hy. }
  rewrite <- Hb.
  destruct (Qeq_bool y 0) eqn:Hz.
  - rewrite <- (Qcompare_comp _ _ Hx 0%Q 0%Q (Qeq_refl 0)).
    destruct (x ?= 0)%Q; exact I.
  - simpl. apply Qeq_bool_neq in Hz. now rewrite Hx, Hy.
Qed.

Lemma div_finite (x y : Q) : ¬ (y == 0)%Q → JS.div x y = JS.Finite (x / y).
Proof.
  intros Hy. unfold JS.div.
  destruct (Qeq_bool y 0) eqn:Hz; [| reflexivity].
  apply Qeq_bool_eq in Hz. contradiction.
Qed.

Lemma lt_true (x y : Q) : JS.lt x y = true ↔ (x < y)%Q.
Proof.
  unfold JS.lt. rewrite negb_true_iff.
  split.
  - intros H. apply Qnot_le_lt. intros Hle. apply Qle_bool_iff in Hle. congruence.
  - intros H. destruct (Qle_bool y x) eqn:E; [| reflexivity].
    apply Qle_bool_iff in E. exfalso. eapply Qlt_not_le; eauto.
Qed.

Lemma lt_false (x y : Q) : JS.lt x y = false ↔ (y <= x)%Q.
Proof.
  unfold JS.lt. rewrite negb_false_iff. apply Qle_bool_iff.
Qed.

End NumberFacts.

(** ** The composition's layout *)

Section CompositionFacts.
Import Composition.

Lemma segment_frames_proper (a b : TimelineSegment.t) :
  same_duration a b → segment_frames a = segment_frames b.
Proof.
  intros H. unfold segment_frames. apply Math_round_proper.
  unfold same_duration in H. now rewrite H.
Qed.

Lemma frames_before_take_proper (l l' : list TimelineSegment.t) :
  Forall2 same_duration l l' →
  ∀ i, frames_before (take i l) = frames_before (take i l').
Proof.
  induction 1 as [| a b l l' Hab _ IH]; intros i.
  - reflexivity.
  - destruct i as [| i]; [reflexivity |].
    simpl. rewrite (segment_frames_proper a b Hab), (IH i). reflexivity.
Qed.



End CompositionFacts.

(** ** renderVideo *)

Section RenderFacts.
Import Effects RenderSpec.

Lemma reduce_sum_frames (fps : Q) (segments : list TimelineSegment.t) (init : Z) :
  JS.reduce
    (fun total seg => total + JS.Math_round (TimelineSegment.duration_seconds seg * fps))
    init segments
  = init + sum_frames fps segments.
Proof.
  unfold JS.reduce. revert init.
  induction segments as [| seg rest IH]; intros init; simpl.
  - lia.
  - rewrite IH. lia.
Qed.

Lemma sum_frames_proper (fps fps' : Q) (l l' : list TimelineSegment.t) :
  (fps == fps')%Q → Forall2 Composition.same_duration l l' →
  sum_frames fps l = sum_frames fps' l'.
Proof.
  intros Hfps. induction 1 as [| a b l l' Hab _ IH]; simpl; [reflexivity |].
  rewrite IH. f_equal. apply Math_round_proper.
  unfold Composition.same_duration in Hab. now rewrite Hab, Hfps.
Qed.

(** A loop of callbacks that only log never throws. *)
Lemma for_each_returns {A : Type} (f : A → IO unit) :
  (∀ x trace, ∃ trace', f x trace = (Returned tt, trace')) →
  ∀ l trace, ∃ trace', for_each f l trace = (Returned tt, trace').
Proof.
  intros Hf l. induction l as [| x rest IH]; intros trace; simpl.
  - eexists. reflexivity.
  - unfold mbind, IO_bind. destruct (Hf x trace) as (t1 & ->). apply IH.
Qed.

Lemma onProgress_cjs_returns job_id progress trace :
  ∃ trace', RenderVideoCjs.onProgress job_id progress trace = (Returned tt, trace').
Proof.
  unfold RenderVideoCjs.onProgress.
  destruct (JS.lt _ _); eexists; reflexivity.
Qed.

Lemma onProgress_esm_returns job_id progress trace :
  ∃ trace', RenderVideoEsm.onProgress job_id progress trace = (Returned tt, trace').
Proof.
  unfold RenderVideoEsm.onProgress.
  destruct (_ =? _); eexists; reflexivity.
Qed.

Ltac step_io :=
  unfold mbind, IO_bind, console_log, emit, await, settle, mret, IO_ret; simpl.

(** The outcome of the CommonJS build: the specified one, on any trace. *)
Lemma renderVideo_cjs_outcome node remotion request trace :
  ∃ trace',
    RenderVideoCjs.renderVideo node remotion request trace
    = (outcome_of remotion (entryPoint_cjs node) request, trace').
Proof.
  unfold RenderVideoCjs.renderVideo, outcome_of, collaborators, entryPoint_cjs,
    options_of, inputProps_of, result_of.
  rewrite reduce_sum_frames, Z.add_0_l.
  step_io.
  destruct (Renderer.bundle remotion _) as [bundleLocation | e]; [| eexists; reflexivity].
  destruct (Renderer.selectComposition remotion _ _ _) as [composition | e];
    [| eexists; reflexivity].
  destruct (Renderer.renderMedia remotion _) as [reports outcome]. simpl.
  step_io.
  match goal with
  | |- context [for_each ?f ?l ?t] =>
      destruct (for_each_returns f (onProgress_cjs_returns _) l t) as (t1 & ->)
  end.
  destruct outcome as [[] | e]; eexists; reflexivity.
Qed.

(** The outcome of the ES-module build. *)
Lemma renderVideo_esm_outcome node remotion request trace :
  ∃ trace',
    RenderVideoEsm.renderVideo node remotion request trace
    = (outcome_of remotion (entryPoint_esm node) request, trace').
Proof.
  unfold RenderVideoEsm.renderVideo, outcome_of, collaborators, entryPoint_esm,
    options_of, inputProps_of, result_of.
  rewrite reduce_sum_frames, Z.add_0_l.
  step_io.
  destruct (Renderer.bundle remotion _) as [bundleLocation | e]; [| eexists; reflexivity].
  destruct (Renderer.selectComposition remotion _ _ _) as [composition | e];
    [| eexists; reflexivity].
  destruct (Renderer.renderMedia remotion _) as [reports outcome]. simpl.
  step_io.
  match goal with
  | |- context [for_each ?f ?l ?t] =>
      destruct (for_each_returns f (onProgress_esm_returns _) l t) as (t1 & ->)
  end.
  destruct outcome as [[] | e]; eexists; reflexivity.
Qed.

Lemma outcome_of_returned remotion entryPoint request r :
  outcome_of remotion entryPoint request = Returned r → r = result_of request.
Proof.
  unfold outcome_of. destruct (collaborators _ _ _); congruence.
Qed.

Lemma renderVideo_cjs_returned node remotion request trace r trace' :
  RenderVideoCjs.renderVideo node remotion request trace = (Returned r, trace') →
  r = result_of request.
Proof.
  destruct (renderVideo_cjs_outcome node remotion request trace) as (t & ->).
  intros [= H _]. eapply outcome_of_returned, H.
Qed.

Lemma renderVideo_esm_returned node remotion request trace r trace' :
  RenderVideoEsm.renderVideo node remotion request trace = (Returned r, trace') →
  r = result_of request.
Proof.
  destruct (renderVideo_esm_outcome node remotion request trace) as (t & ->).
  intros [= H _]. eapply outcome_of_returned, H.
Qed.

(** C8: the two builds of renderVideo agree.  Whenever both return, they
    return the same RenderResult, even under different module contexts and
    collaborators; and where the two ways to the module directory agree,
    they return or throw alike.  Only the trace (the progress lines)
    differs. *)
Theorem renderVideo_builds_agree node remotion node' remotion' request trace trace' :
  (∀ r r',
     fst (RenderVideoCjs.renderVideo node remotion request trace) = Returned r →
     fst (RenderVideoEsm.renderVideo node' remotion' request trace') = Returned r' →
     r = r')
  ∧ (Node.__dirname node = RenderVideoEsm.__dirname node →
     fst (RenderVideoCjs.renderVideo node remotion request trace)
     = fst (RenderVideoEsm.renderVideo node remotion request trace')).
Proof.
  split.
  - intros r r' Hr Hr'.
    destruct (renderVideo_cjs_outcome node remotion request trace) as (t & Ht).
    destruct (renderVideo_esm_outcome node' remotion' request trace') as (t' & Ht').
    rewrite Ht in Hr. rewrite Ht' in Hr'. simpl in *.
    apply outcome_of_returned in Hr, Hr'. congruence.
  - intros Hdir.
    destruct (renderVideo_cjs_outcome node remotion request trace) as (t & ->).
    destruct (renderVideo_esm_outcome node remotion request trace') as (t' & ->).
    simpl. unfold entryPoint_cjs, entryPoint_esm. now rewrite Hdir.
Qed.

Lemma renderVideo_builds_agree_witness :
  fst (RenderVideoCjs.renderVideo Samples.node Samples.remotion
         (Samples.request 30 15 Samples.three_segments) [])
  = fst (RenderVideoEsm.renderVideo Samples.node Samples.remotion
           (Samples.request 30 15 Samples.three_segments) [])
  ∧ result_of (Samples.request 30 15 Samples.three_segments)
    = result_of (Samples.request 30 15 Samples.three_segments).
Proof.
  destruct (renderVideo_builds_agree Samples.node Samples.remotion
              Samples.node Samples.remotion
              (Samples.request 30 15 Samples.three_segments) [] [])
    as (Hsame & Halike).
  split.
  - apply Halike. reflexivity.
  - apply Hsame; vm_compute; reflexivity.
Defined.

(** The traces of the two builds do differ: of the reports 0, 0.03, 0.5
    and 1 the first build logs one, the second three. *)
Example progress_lines_differ :
  snd (RenderVideoCjs.renderVideo Samples.node Samples.remotion
         (Samples.request 30 15 Samples.three_segments) [])
  ≠ snd (RenderVideoEsm.renderVideo Samples.node Samples.remotion
           (Samples.request 30 15 Samples.three_segments) []).
Proof. vm_compute. discriminate. Qed.

(** C9: the durationSeconds renderVideo returns is determined by fps and
    by the segments' duration_seconds alone: two requests that agree on
    these return the same duration, whatever their total_duration_seconds,
    title, width, height, style, paths and collaborators. *)
Theorem duration_only_of_fps_and_durations
    node remotion node' remotion' request request' trace trace' r r' :
  (RenderRequest.fps request == RenderRequest.fps request')%Q →
  Forall2 Composition.same_duration
    (RenderRequest.segments request) (RenderRequest.segments request') →
  fst (RenderVideoCjs.renderVideo node remotion request trace) = Returned r →
  fst (RenderVideoCjs.renderVideo node' remotion' request' trace') = Returned r' →
  JS.number_eq (durationSeconds r) (durationSeconds r').
Proof.
  intros Hfps Hsegs Hr Hr'.
  destruct (renderVideo_cjs_outcome node remotion request trace) as (t & Ht).
  destruct (renderVideo_cjs_outcome node' remotion' request' trace') as (t' & Ht').
  rewrite Ht in Hr. rewrite Ht' in Hr'. simpl in *.
  apply outcome_of_returned in Hr, Hr'. subst r r'.
  unfold result_of. simpl.
  apply div_proper; [| exact Hfps].
  rewrite (sum_frames_proper _ _ _ _ Hfps Hsegs). reflexivity.
Qed.

Lemma duration_only_of_fps_and_durations_witness :
  JS.number_eq
    (durationSeconds (result_of (Samples.request 30 15 Samples.three_segments)))
    (durationSeconds (result_of Samples.other_request)).
Proof.
  apply (duration_only_of_fps_and_durations Samples.node Samples.remotion
           Samples.node Samples.remotion
           (Samples.request 30 15 Samples.three_segments) Samples.other_request [] []).
  - reflexivity.
  - repeat constructor; reflexivity.
  - vm_compute. reflexivity.
  - vm_compute. reflexivity.
Defined.

End RenderFacts.

(** ** The /render endpoint *)

Section ServerFacts.
Import Effects Server.

Lemma missing_required_spec (body : RequestBody) :
  missing_required body = true
  ↔ job_id body = None ∨ job_id body = Some EmptyString
    ∨ output_path body = None ∨ output_path body = Some EmptyString
    ∨ segments body = None.
Proof.
  unfold missing_required.
  destruct (job_id body) as [[| c j] |], (output_path body) as [[| c' o] |],
    (segments body) as [l |]; simpl; split; intros H;
    try reflexivity; try discriminate; try tauto;
    repeat (destruct H as [H | H]; try discriminate).
Qed.

Lemma post_render_cases (renderVideo : RenderRequest.t → IO RenderResult)
    (body : RequestBody) (trace : list Event) :
  if missing_required body then
    post_render renderVideo body trace = (Returned bad_request, trace)
  else
    let request := as_RenderRequest body in
    let started :=
      trace ++ [ConsoleLog (ReceivedRenderRequest (RenderRequest.job_id request))] in
    match renderVideo request started with
    | (Returned result, trace') =>
        post_render renderVideo body trace = (Returned (ok result), trace')
    | (Threw error, trace') =>
        post_render renderVideo body trace
        = (Returned (server_error error),
           trace' ++ [ConsoleError (RenderError (RenderRequest.job_id request) error)])
    end.
Proof.
  unfold post_render.
  destruct (missing_required body); [reflexivity |].
  cbv zeta.
  unfold try_catch, mbind, IO_bind, console_log, console_error, emit, mret, IO_ret.
  destruct (renderVideo _ _) as [[result | error] trace']; reflexivity.
Qed.

Lemma reply_shape (renderVideo : RenderRequest.t → IO RenderResult)
    (body : RequestBody) (trace : list Event) :
  ∃ reply trace',
    post_render renderVideo body trace = (Returned reply, trace') ∧ well_shaped reply.
Proof.
  pose proof (post_render_cases renderVideo body trace) as H.
  destruct (missing_required body).
  - eexists _, _. split; [exact H |]. unfold well_shaped. simpl. eauto.
  - cbv zeta in H.
    destruct (renderVideo _ _) as [[result | error] trace'];
      eexists _, _; (split; [exact H |]); unfold well_shaped; simpl; eauto.
Qed.

End ServerFacts.

(** ** The slide's fades *)

Section SlideFacts.






End SlideFacts.

(** ** The persisted schema *)

Section SchemaFacts.
Import Sql Migrations.

(** The migrations run without error on an empty database. *)
Lemma migrate_runs : is_Some (migrate empty_database).
Proof. vm_compute. eauto. Qed.

(** Running them again changes nothing. *)
Lemma migrate_idempotent :
  (migrate empty_database ≫= migrate) = migrate empty_database.
Proof. vm_compute. reflexivity. Qed.

(** C6, evaluated: after the three migrations the stage enumeration has
    exactly the five members extract, generate, images, tts and render,
    and the status enumeration has the four members pending, processing,
    completed and failed; 'cancelled' is not among them. *)
Theorem job_status_lacks_cancelled :
  ∃ db, migrate empty_database = Some db
    ∧ types db !! "job_stage" = Some ["extract"; "generate"; "images"; "tts"; "render"]
    ∧ types db !! "job_status" = Some ["pending"; "processing"; "completed"; "failed"]
    ∧ bool_decide ("cancelled" ∈ default [] (types db !! "job_status")) = false.
Proof.
  destruct (migrate empty_database) as [db |] eqn:Hdb; [| vm_compute in Hdb; discriminate].
  exists db. split; [reflexivity |].
  assert (Hstage : types db !! "job_stage"
                   = Some ["extract"; "generate"; "images"; "tts"; "render"]).
  { vm_compute in Hdb. injection Hdb as <-. vm_compute. reflexivity. }
  assert (Hstatus : types db !! "job_status"
                    = Some ["pending"; "processing"; "completed"; "failed"]).
  { vm_compute in Hdb. injection Hdb as <-. vm_compute. reflexivity. }
  split; [exact Hstage |]. split; [exact Hstatus |].
  rewrite Hstatus. vm_compute. reflexivity.
Qed.

(** C7: the schema has one table of jobs, keyed by id, with a column for
    every field of the job: id, the four timestamps, status, current_stage,
    stage_progress, the two input references, the three artifact paths,
    the derived metadata, the error fields, retry_count, stage_durations
    and cancel_requested.  status defaults to pending, retry_count to 0,
    stage_durations to the empty mapping, and cancel_requested, an integer
    flag, to 0, which stands for false. *)
Theorem jobs_table_columns :
  ∃ db, migrate empty_database = Some db
    ∧ column_names db "jobs"
      = Some ["id"; "created_at"; "updated_at"; "completed_at";
              "status"; "current_stage"; "stage_progress";
              "original_filename"; "pdf_path";
              "timeline_path"; "audio_path"; "video_path";
              "video_duration_seconds"; "slide_count";
              "error_message"; "error_stage"; "retry_count";
              "stage_started_at"; "stage_durations"; "cancel_requested"]
    ∧ find_column db "jobs" "id"
      = Some {| column_name := "id"; data_type := VARCHAR 36; primary_key := true;
                not_null := true; default_expr := None |}
    ∧ find_column db "jobs" "status"
      = Some {| column_name := "status"; data_type := EnumType "job_status";
                primary_key := false; not_null := true;
                default_expr := Some (StringLiteral "pending") |}
    ∧ (data_type <$> find_column db "jobs" "current_stage") = Some (EnumType "job_stage")
    ∧ (data_type <$> find_column db "jobs" "error_stage") = Some (EnumType "job_stage")
    ∧ (default_expr <$> find_column db "jobs" "retry_count")
      = Some (Some (IntegerLiteral 0))
    ∧ find_column db "jobs" "stage_durations"
      = Some {| column_name := "stage_durations"; data_type := JSONB;
                primary_key := false; not_null := false;
                default_expr := Some (StringLiteral "{}") |}
    ∧ find_column db "jobs" "cancel_requested"
      = Some {| column_name := "cancel_requested"; data_type := INTEGER;
                primary_key := false; not_null := false;
                default_expr := Some (IntegerLiteral 0) |}
    ∧ flag_of_integer 0 = Some false.
Proof.
  destruct (migrate empty_database) as [db |] eqn:Hdb; [| vm_compute in Hdb; discriminate].
  exists db. split; [reflexivity |].
  vm_compute in Hdb. injection Hdb as <-.
  repeat split; vm_compute; reflexivity.
Qed.

End SchemaFacts.

(** ** The generate stage *)

Section GenerateFacts.
Import Orchestrator.

Lemma Qle_bool_false (x y : Q) : Qle_bool x y = false ↔ (y < x)%Q.
Proof.
  split.
  - intros H. apply Qnot_le_lt. intros Hle. apply Qle_bool_iff in Hle. congruence.
  - intros H. destruct (Qle_bool x y) eqn:E; [| reflexivity].
    apply Qle_bool_iff in E. exfalso. eapply Qlt_not_le; eauto.
Qed.

Lemma strictly_increasing_false (starts : list Q) :
  strictly_increasing starts = false
  ↔ ∃ i x y, starts !! i = Some x ∧ starts !! S i = Some y ∧ ¬ (x < y)%Q.
Proof.
  induction starts as [| x rest IH].
  - split; [discriminate | intros (i & ? & ? & H & _); discriminate].
  - destruct rest as [| y rest'].
    + split; [discriminate |].
      intros ([| i] & ? & ? & _ & H & _); discriminate.
    + change (strictly_increasing (x :: y :: rest'))
        with (JS.lt x y && strictly_increasing (y :: rest')).
      rewrite andb_false_iff, IH. split.
      * intros [Hxy | (i & a & b & Ha & Hb & Hab)].
        -- exists 0%nat, x, y. repeat split. intros Hlt.
           apply lt_true in Hlt. congruence.
        -- exists (S i), a, b. auto.
      * intros ([| i] & a & b & Ha & Hb & Hab).
        -- left. injection Ha as <-. injection Hb as <-.
           destruct (JS.lt x y) eqn:E; [| reflexivity].
           apply lt_true in E. contradiction.
        -- right. exists i, a, b. auto.
Qed.

(** The validator rejects exactly the timelines that are invalid in one
    of the four ways. *)
Lemma validate_false_iff (band : Band) (timeline : Timeline) :
  validate band timeline = false ↔ invalid band timeline.
Proof.
  unfold validate, invalid.
  rewrite !andb_false_iff, !Qle_bool_false, strictly_increasing_false.
  rewrite Nat.ltb_ge, <- Nat.nlt_ge.
  assert (Hneg : forallb (fun segment =>
                    Qle_bool 0 (TimelineSegment.duration_seconds segment)) timeline = false
                 ↔ ∃ segment, segment ∈ timeline
                     ∧ (TimelineSegment.duration_seconds segment < 0)%Q).
  { rewrite <- not_true_iff_false, forallb_forall. split.
    - intros Hn.
      induction timeline as [| s rest IH].
      + exfalso. apply Hn. intros ? [].
      + destruct (Qle_bool 0 (TimelineSegment.duration_seconds s)) eqn:E.
        * destruct IH as (x & Hx & Hd).
          { intros Hall. apply Hn. intros y [<- | Hy]; auto. }
          exists x. split; [now right | exact Hd].
        * exists s. split; [now left | now apply Qle_bool_false].
    - intros (x & Hx & Hd) Hall.
      apply list_elem_of_In in Hx. specialize (Hall x Hx).
      apply Qle_bool_false in Hd. congruence. }
  rewrite Hneg.
  assert (Hmap : (∃ i x y,
                    List.map TimelineSegment.start_time_seconds timeline !! i = Some x
                    ∧ List.map TimelineSegment.start_time_seconds timeline !! S i = Some y
                    ∧ ¬ (x < y)%Q)
                 ↔ ∃ i a b, timeline !! i = Some a ∧ timeline !! S i = Some b
                     ∧ ¬ (TimelineSegment.start_time_seconds a
                          < TimelineSegment.start_time_seconds b)%Q).
  { change (List.map TimelineSegment.start_time_seconds timeline)
      with (TimelineSegment.start_time_seconds <$> timeline).
    split.
    - intros (i & x & y & Hx & Hy & Hxy).
      apply list_lookup_fmap_Some_1 in Hx as (a & -> & Ha).
      apply list_lookup_fmap_Some_1 in Hy as (b & -> & Hb).
      eauto 6.
    - intros (i & a & b & Ha & Hb & Hab).
      exists i, (TimelineSegment.start_time_seconds a),
        (TimelineSegment.start_time_seconds b).
      split; [apply list_lookup_fmap_Some_2, Ha |].
      split; [apply list_lookup_fmap_Some_2, Hb | exact Hab]. }
  rewrite Hmap. tauto.
Qed.

(** C3: a timeline returned by the generate stage that fails validation
    (no segment, a negative duration, start times not strictly increasing,
    or a total duration outside the band) leaves the job with status
    failed, error_stage generate and an error message, whatever its retry
    count and the ceiling, and timeline_path stays unset. *)
Theorem invalid_timeline_fails_job (band : Band) (ceiling : nat) (job : Job)
    (returned : Timeline) :
  invalid band returned →
  timeline_path job = None →
  status (run_generate band ceiling job returned) = failed
  ∧ error_stage (run_generate band ceiling job returned) = Some generate
  ∧ is_Some (error_message (run_generate band ceiling job returned))
  ∧ timeline_path (run_generate band ceiling job returned) = None
  ∧ retry_count (run_generate band ceiling job returned) = retry_count job.
Proof.
  intros Hinvalid Hpath.
  apply validate_false_iff in Hinvalid.
  unfold run_generate, generate_executor. rewrite Hinvalid. simpl.
  repeat split; eauto.
Qed.

Lemma invalid_timeline_fails_job_witness :
  status (run_generate Samples.band 3 Samples.job Samples.backwards_timeline) = failed
  ∧ error_stage (run_generate Samples.band 3 Samples.job Samples.backwards_timeline)
    = Some generate
  ∧ timeline_path (run_generate Samples.band 3 Samples.job Samples.backwards_timeline)
    = None.
Proof.
  destruct (invalid_timeline_fails_job Samples.band 3 Samples.job
              Samples.backwards_timeline)
    as (Hstatus & Hstage & _ & Hpath & _).
  - right. right. left.
    exists 0%nat, (Samples.segment "seg_001" 5 5 None),
      (Samples.segment "seg_002" 0 4 None).
    split; [reflexivity |]. split; [reflexivity |].
    simpl. intros H. vm_compute in H. discriminate.
  - reflexivity.
  - auto.
Defined.

(** A valid timeline passes validation: the job moves on to images with its
    timeline_path set. *)
Example valid_timeline_advances :
  run_generate Samples.band 3 Samples.job Samples.three_segments
  = {| id := "j1"; status := processing; current_stage := Some images;
       timeline_path := Some "j1/timeline.json"; audio_path := None; video_path := None;
       error_message := None; error_stage := None; retry_count := 0;
       cancel_requested := false |}.
Proof. vm_compute. reflexivity. Qed.

End GenerateFacts.

(** ** More on the composition's layout *)

Section LayoutFacts.
Import Composition.

Lemma Math_round_nonneg (x : Q) : (0 <= x)%Q → 0 <= JS.Math_round x.
Proof.
  intros Hx. unfold JS.Math_round.
  change 0 with (Qfloor 0). apply Qfloor_resp_le. lra.
Qed.










Lemma map_segments_labels style (segments : list TimelineSegment.t) :
  ∀ currentFrame index i segment,
    segments !! i = Some segment →
    ∃ sq, map_segments style currentFrame index segments !! i = Some sq
      ∧ key sq = TimelineSegment.segment_id segment
      ∧ name sq = "Segment " +:+ pretty (index + i + 1)%nat +:+ ": "
                  +:+ SlideContent.title (TimelineSegment.slide segment)
      ∧ Slide.content (slide sq) = TimelineSegment.slide segment
      ∧ Slide.style (slide sq) = style
      ∧ Slide.imagePath (slide sq) = TimelineSegment.image_path segment.
Proof.
  induction segments as [| s rest IH]; intros currentFrame index i segment Hi.
  - discriminate.
  - destruct i as [| i].
    + injection Hi as <-. eexists. split; [reflexivity |]. simpl.
      rewrite Nat.add_0_r. repeat split; reflexivity.
    + simpl in Hi.
      destruct (IH (currentFrame + segment_frames s) (S index) i segment Hi)
        as (sq & Hsq & Hkey & Hname & Hrest).
      exists sq. split; [exact Hsq |]. split; [exact Hkey |]. split; [| exact Hrest].
      rewrite Hname. do 3 f_equal. lia.
Qed.

(** X3: the element at position i is keyed by the id of segment i, is named
    with the position counted from 1, and shows that segment's slide content
    and image in the composition's style; so the keys are the segment ids in
    order. *)
Theorem sequence_labels (props : VideoCompositionProps.t) (i : nat)
    (segment : TimelineSegment.t) :
  VideoCompositionProps.segments props !! i = Some segment →
  key <$> TeacherTrainingVideo props
  = TimelineSegment.segment_id <$> VideoCompositionProps.segments props
  ∧ ∃ sq, TeacherTrainingVideo props !! i = Some sq
      ∧ key sq = TimelineSegment.segment_id segment
      ∧ name sq = "Segment " +:+ pretty (i + 1)%nat +:+ ": "
                  +:+ SlideContent.title (TimelineSegment.slide segment)
      ∧ Slide.content (slide sq) = TimelineSegment.slide segment
      ∧ Slide.style (slide sq) = VideoCompositionProps.style props
      ∧ Slide.imagePath (slide sq) = TimelineSegment.image_path segment.
Proof.
  intros Hi. split.
  - unfold TeacherTrainingVideo. clear Hi.
    generalize 0 at 1. generalize 0%nat.
    induction (VideoCompositionProps.segments props) as [| s rest IH];
      intros index currentFrame; simpl; [reflexivity |].
    f_equal. apply IH.
  - apply (map_segments_labels (VideoCompositionProps.style props) _ 0 0%nat i segment Hi).
Qed.

Lemma sequence_labels_witness :
  ∃ sq, TeacherTrainingVideo (Samples.props Samples.three_segments) !! 2%nat = Some sq
    ∧ key sq = "seg_003" ∧ name sq = "Segment 3: seg_003".
Proof.
  destruct (sequence_labels (Samples.props Samples.three_segments) 2
              (Samples.segment "seg_003" 9 6 None) eq_refl)
    as (_ & sq & Hsq & Hkey & Hname & _).
  exists sq. split; [exact Hsq |]. split; [exact Hkey |].
  rewrite Hname. vm_compute. reflexivity.
Defined.





(** At another frame rate the two lengths part: at 60 frames per second the
    composition is given 900 frames and the layout fills 450. *)
Example composition_length_at_60_fps :
  RenderSpec.sum_frames 60 Samples.three_segments = 900
  ∧ foldr Z.add 0
      (durationInFrames <$> TeacherTrainingVideo (Samples.props Samples.three_segments))
    = 450.
Proof. split; vm_compute; reflexivity. Qed.

(** The preview the root registers is given the length of its own layout,
    150 frames, under the id renderVideo selects. *)
Example RemotionRoot_preview :
  Root.durationInFrames Root.RemotionRoot = 150
  ∧ foldr Z.add 0
      (durationInFrames
       <$> Root.component Root.RemotionRoot (Root.registeredProps Root.RemotionRoot))
    = Root.durationInFrames Root.RemotionRoot
  ∧ Root.id Root.RemotionRoot = "TeacherTrainingVideo".
Proof. repeat split; vm_compute; reflexivity. Qed.

End LayoutFacts.

(** ** More on the slide's fades and bullets *)

Section FadeFacts.

(** The fade-in by cases: a ramp of 15 frames, then 1. *)
Lemma opacity_cases (frame : Q) :
  (0 <= frame)%Q →
  ∃ o, Slide.opacity frame = Some o
    ∧ (((frame <= 15)%Q ∧ (o == frame * (1 # 15))%Q) ∨ ((15 < frame)%Q ∧ (o == 1)%Q)).
Proof.
  intros H0. unfold Slide.opacity, Remotion.interpolate.
  change (Qle_bool 15 0) with false. change (Qeq_bool 0 1) with false. cbv iota.
  destruct (JS.lt frame 0) eqn:Hl.
  { apply lt_true in Hl. lra. }
  destruct (JS.lt 15 frame) eqn:Hr; simpl.
  - apply lt_true in Hr. eexists. split; [reflexivity |]. right. split; [exact Hr |].
    reflexivity.
  - apply lt_false in Hr. eexists. split; [reflexivity |]. left. split; [exact Hr |].
    field.
Qed.

(** The fade-out by cases: 1, then a ramp of 15 frames down to 0 at
    [durationFrames], then 0. *)
Lemma fadeOutOpacity_cases (frame durationFrames : Q) :
  ∃ o, Slide.fadeOutOpacity frame durationFrames = Some o
    ∧ (((frame < durationFrames - 15)%Q ∧ (o == 1)%Q)
       ∨ ((durationFrames - 15 <= frame)%Q ∧ (frame <= durationFrames)%Q
          ∧ (o == (durationFrames - frame) * (1 # 15))%Q)
       ∨ ((durationFrames < frame)%Q ∧ (o == 0)%Q)).
Proof.
  unfold Slide.fadeOutOpacity, Remotion.interpolate.
  destruct (Qle_bool durationFrames (durationFrames - 15)) eqn:Hw.
  { apply Qle_bool_iff in Hw. lra. }
  change (Qeq_bool 1 0) with false. cbv iota.
  assert (Hwidth : (durationFrames - (durationFrames - 15) == 15)%Q) by ring.
  destruct (JS.lt frame (durationFrames - 15)) eqn:Hl; simpl.
  - apply lt_true in Hl. eexists. split; [reflexivity |]. left. split; [exact Hl |].
    rewrite Hwidth. field.
  - apply lt_false in Hl.
    destruct (JS.lt durationFrames frame) eqn:Hr; simpl.
    + apply lt_true in Hr. eexists. split; [reflexivity |]. right. right.
      split; [exact Hr |]. rewrite Hwidth. field.
    + apply lt_false in Hr. eexists. split; [reflexivity |]. right. left.
      split; [exact Hl |]. split; [exact Hr |]. rewrite Hwidth. field.
Qed.

(** Both fades at once, with the minimum resolved. *)
Lemma finalOpacity_cases (frame durationFrames : Q) :
  (0 <= frame)%Q →
  ∃ o i f, Slide.finalOpacity frame durationFrames = Some o
    ∧ (((i <= f)%Q ∧ (o == i)%Q) ∨ ((f <= i)%Q ∧ (o == f)%Q))
    ∧ (((frame <= 15)%Q ∧ (i == frame * (1 # 15))%Q) ∨ ((15 < frame)%Q ∧ (i == 1)%Q))
    ∧ (((frame < durationFrames - 15)%Q ∧ (f == 1)%Q)
       ∨ ((durationFrames - 15 <= frame)%Q ∧ (frame <= durationFrames)%Q
          ∧ (f == (durationFrames - frame) * (1 # 15))%Q)
       ∨ ((durationFrames < frame)%Q ∧ (f == 0)%Q)).
Proof.
  intros H0. unfold Slide.finalOpacity.
  destruct (opacity_cases frame H0) as (i & -> & Hi).
  destruct (fadeOutOpacity_cases frame durationFrames) as (f & -> & Hf).
  simpl. exists (JS.Math_min i f), i, f. split; [reflexivity |].
  split; [| split; assumption].
  unfold JS.Math_min.
  destruct (Q.min_spec i f) as [[Hlt ->] | [Hle ->]]; [left | right]; split;
    try reflexivity; lra.
Qed.

Ltac fade_cases H :=
  destruct H as ([[? ?] | [? ?]] & [[? ?] | [? ?]] & [[? ?] | [(? & ? & ?) | [? ?]]]).

(** X5: every slide starts fully transparent and is visible from then on:
    for a whole durationFrames from 0 to 2^53 (the whole numbers a frame
    count can take one by one), the opacity is 0 on frame 0, and it is
    above 0 on every whole frame strictly between 0 and durationFrames. *)
Theorem slide_transparent_only_at_start (k n : Z) :
  0 <= n <= 9007199254740992 →
  (∃ o, Slide.finalOpacity 0 (inject_Z n) = Some o ∧ (o == 0)%Q)
  ∧ (0 < k < n →
     ∃ o, Slide.finalOpacity (inject_Z k) (inject_Z n) = Some o ∧ (0 < o)%Q).
Proof.
  intros _. split.
  - destruct (finalOpacity_cases 0 (inject_Z n)) as (o & i & f & Ho & H); [lra |].
    exists o. split; [exact Ho |]. fade_cases H; lra.
  - intros [Hk Hn].
    assert (Hk' : (0 < inject_Z k)%Q) by (change 0%Q with (inject_Z 0); now rewrite <- Zlt_Qlt).
    assert (Hn' : (inject_Z k < inject_Z n)%Q) by now rewrite <- Zlt_Qlt.
    destruct (finalOpacity_cases (inject_Z k) (inject_Z n)) as (o & i & f & Ho & H); [lra |].
    exists o. split; [exact Ho |]. fade_cases H; lra.
Qed.

Lemma slide_transparent_only_at_start_witness :
  (∃ o, Slide.finalOpacity 0 (inject_Z 150) = Some o ∧ (o == 0)%Q)
  ∧ ∃ o, Slide.finalOpacity (inject_Z 149) (inject_Z 150) = Some o ∧ (0 < o)%Q.
Proof.
  destruct (slide_transparent_only_at_start 149 150 ltac:(lia)) as [Hstart Hlater].
  split; [exact Hstart | apply Hlater; lia].
Defined.

(** X6: a slide shorter than 30 frames never reaches full opacity: the
    fade-out has begun before the fade-in is over. *)
Theorem short_slide_never_opaque (frame durationFrames : Q) :
  (0 <= frame)%Q → (durationFrames < 30)%Q →
  ∃ o, Slide.finalOpacity frame durationFrames = Some o ∧ (o < 1)%Q.
Proof.
  intros H0 Hd.
  destruct (finalOpacity_cases frame durationFrames H0) as (o & i & f & Ho & H).
  exists o. split; [exact Ho |]. fade_cases H; lra.
Qed.

Lemma short_slide_never_opaque_witness :
  ∃ o, Slide.finalOpacity 12 24 = Some o ∧ (o < 1)%Q.
Proof.
  apply (short_slide_never_opaque 12 24); lra.
Defined.

Lemma bulletDelay_S (index : nat) :
  (Slide.bulletDelay (S index) == Slide.bulletDelay index + 10)%Q.
Proof.
  unfold Slide.bulletDelay. rewrite Nat2Z.inj_succ. unfold Z.succ.
  rewrite inject_Z_plus. change (inject_Z 1) with 1%Q. ring.
Qed.

(** A bullet's fade-in by cases: 0, a ramp of 15 frames from its delay,
    then 1. *)
Lemma bulletOpacity_cases (frame : Q) (index : nat) :
  ∃ o, Slide.bulletOpacity frame index = Some o
    ∧ (((frame < Slide.bulletDelay index)%Q ∧ (o == 0)%Q)
       ∨ ((Slide.bulletDelay index <= frame)%Q ∧ (frame <= Slide.bulletDelay index + 15)%Q
          ∧ (o == (frame - Slide.bulletDelay index) * (1 # 15))%Q)
       ∨ ((Slide.bulletDelay index + 15 < frame)%Q ∧ (o == 1)%Q)).
Proof.
  unfold Slide.bulletOpacity, Remotion.interpolate.
  generalize (Slide.bulletDelay index). intros delay.
  destruct (Qle_bool (delay + 15) delay) eqn:Hw.
  { apply Qle_bool_iff in Hw. lra. }
  change (Qeq_bool 0 1) with false. cbv iota.
  assert (Hwidth : (delay + 15 - delay == 15)%Q) by ring.
  destruct (JS.lt frame delay) eqn:Hl; simpl.
  - apply lt_true in Hl. eexists. split; [reflexivity |]. left. split; [exact Hl |].
    rewrite Hwidth. field.
  - apply lt_false in Hl.
    destruct (JS.lt (delay + 15) frame) eqn:Hr; simpl.
    + apply lt_true in Hr. eexists. split; [reflexivity |]. right. right.
      split; [exact Hr |]. rewrite Hwidth. field.
    + apply lt_false in Hr. eexists. split; [reflexivity |]. right. left.
      split; [exact Hl |]. split; [exact Hr |]. rewrite Hwidth. field.
Qed.

(** X8: a bullet's opacity is defined on every frame and lies in [0, 1];
    the bullet at position i is invisible up to frame 20 + 10 i and fully
    visible from frame 35 + 10 i on; in particular nothing of it shows on a
    slide of at most 20 + 10 i frames. *)
Theorem bullet_opacity_phases (frame : Q) (index : nat) :
  ∃ o, Slide.bulletOpacity frame index = Some o
    ∧ (0 <= o)%Q ∧ (o <= 1)%Q
    ∧ ((frame <= 20 + inject_Z (Z.of_nat index) * 10)%Q → (o == 0)%Q)
    ∧ ((35 + inject_Z (Z.of_nat index) * 10 <= frame)%Q → (o == 1)%Q).
Proof.
  destruct (bulletOpacity_cases frame index) as (o & Ho & H).
  exists o. split; [exact Ho |].
  unfold Slide.bulletDelay in H.
  destruct H as [[? ?] | [(? & ? & ?) | [? ?]]];
    (split; [lra | split; [lra | split; intros ?; lra]]).
Qed.

Lemma bullet_opacity_phases_witness :
  ∃ o, Slide.bulletOpacity 30 1 = Some o ∧ (o == 0)%Q.
Proof.
  destruct (bullet_opacity_phases 30 1) as (o & Ho & _ & _ & Hzero & _).
  exists o. split; [exact Ho |]. apply Hzero. vm_compute. discriminate.
Defined.

(** X9: the bullets are staggered by 10 frames: the bullet at position
    i + 1 looks on frame f + 10 as the bullet at position i looks on frame f,
    and on no frame is it more opaque than the bullet before it. *)
Theorem bullets_staggered (frame : Q) (index : nat) :
  ∃ o o' later,
    Slide.bulletOpacity frame index = Some o
    ∧ Slide.bulletOpacity frame (S index) = Some o'
    ∧ Slide.bulletOpacity (frame + 10) (S index) = Some later
    ∧ (o' <= o)%Q ∧ (later == o)%Q.
Proof.
  destruct (bulletOpacity_cases frame index) as (o & Ho & H).
  destruct (bulletOpacity_cases frame (S index)) as (o' & Ho' & H').
  destruct (bulletOpacity_cases (frame + 10) (S index)) as (later & Hlater & H'').
  exists o, o', later. repeat (split; [assumption |]).
  pose proof (bulletDelay_S index) as HS.
  revert H H' H'' HS.
  generalize (Slide.bulletDelay (S index)) (Slide.bulletDelay index).
  intros delay' delay H H' H'' HS.
  destruct H as [[? ?] | [(? & ? & ?) | [? ?]]];
    destruct H' as [[? ?] | [(? & ? & ?) | [? ?]]];
    destruct H'' as [[? ?] | [(? & ? & ?) | [? ?]]];
    split; lra.
Qed.

End FadeFacts.

(** ** More on renderVideo: its trace and its arithmetic *)

Section RenderTraceFacts.
Import Effects RenderSpec.

Lemma for_each_onProgress_cjs job_id (reports : list Q) :
  ∀ trace,
    for_each (RenderVideoCjs.onProgress job_id) reports trace
    = (Returned tt, trace ++ progress_lines logs_cjs job_id reports).
Proof.
  unfold progress_lines.
  induction reports as [| p rest IH]; intros trace; simpl.
  - rewrite app_nil_r. reflexivity.
  - unfold mbind, IO_bind, RenderVideoCjs.onProgress.
    fold (logs_cjs p).
    destruct (logs_cjs p) eqn:Hp.
    + rewrite filter_cons_True by exact Hp.
      unfold console_log, emit. rewrite IH, <- app_assoc. reflexivity.
    + rewrite filter_cons_False by congruence.
      unfold mret, IO_ret. rewrite IH. reflexivity.
Qed.

Lemma for_each_onProgress_esm job_id (reports : list Q) :
  ∀ trace,
    for_each (RenderVideoEsm.onProgress job_id) reports trace
    = (Returned tt, trace ++ progress_lines logs_esm job_id reports).
Proof.
  unfold progress_lines.
  induction reports as [| p rest IH]; intros trace; simpl.
  - rewrite app_nil_r. reflexivity.
  - unfold mbind, IO_bind, RenderVideoEsm.onProgress.
    fold (logs_esm p).
    destruct (logs_esm p) eqn:Hp.
    + rewrite filter_cons_True by exact Hp.
      unfold console_log, emit. rewrite IH, <- app_assoc. reflexivity.
    + rewrite filter_cons_False by congruence.
      unfold mret, IO_ret. rewrite IH. reflexivity.
Qed.

Ltac run_io :=
  unfold mbind, IO_bind, console_log, emit, await, settle, mret, IO_ret; simpl.

(** The whole run of the CommonJS build: its outcome and the events it
    appends. *)
Lemma renderVideo_cjs_run node remotion request trace :
  RenderVideoCjs.renderVideo node remotion request trace
  = (outcome_of remotion (entryPoint_cjs node) request,
     trace ++ events_of logs_cjs remotion (entryPoint_cjs node) request).
Proof.
  unfold RenderVideoCjs.renderVideo, outcome_of, collaborators, events_of, entryPoint_cjs,
    options_of, inputProps_of, result_of.
  rewrite reduce_sum_frames, Z.add_0_l.
  run_io.
  destruct (Renderer.bundle remotion _) as [bundleLocation | e];
    [| rewrite <- !app_assoc; reflexivity].
  destruct (Renderer.selectComposition remotion _ _ _) as [composition | e];
    [| rewrite <- !app_assoc; reflexivity].
  destruct (Renderer.renderMedia remotion _) as [reports outcome]. simpl.
  run_io.
  rewrite for_each_onProgress_cjs.
  destruct outcome as [[] | e]; rewrite <- !app_assoc; simpl; rewrite ?app_nil_r;
    reflexivity.
Qed.

(** The whole run of the ES-module build. *)
Lemma renderVideo_esm_run node remotion request trace :
  RenderVideoEsm.renderVideo node remotion request trace
  = (outcome_of remotion (entryPoint_esm node) request,
     trace ++ events_of logs_esm remotion (entryPoint_esm node) request).
Proof.
  unfold RenderVideoEsm.renderVideo, outcome_of, collaborators, events_of, entryPoint_esm,
    options_of, inputProps_of, result_of.
  rewrite reduce_sum_frames, Z.add_0_l.
  run_io.
  destruct (Renderer.bundle remotion _) as [bundleLocation | e];
    [| rewrite <- !app_assoc; reflexivity].
  destruct (Renderer.selectComposition remotion _ _ _) as [composition | e];
    [| rewrite <- !app_assoc; reflexivity].
  destruct (Renderer.renderMedia remotion _) as [reports outcome]. simpl.
  run_io.
  rewrite for_each_onProgress_esm.
  destruct outcome as [[] | e]; rewrite <- !app_assoc; simpl; rewrite ?app_nil_r;
    reflexivity.
Qed.


Lemma progress_lines_no_complete logs job_id reports :
  existsb is_complete (progress_lines logs job_id reports) = false.
Proof.
  unfold progress_lines.
  induction (filter (fun progress => logs progress = true) reports) as [| p l IH];
    [reflexivity |].
  rewrite fmap_cons. simpl. exact IH.
Qed.


(** X11: the line "Render complete" is written exactly when renderVideo
    returns; a render that throws never reports completion. *)
Theorem render_complete_iff_returned node remotion request trace :
  ∃ events,
    snd (RenderVideoCjs.renderVideo node remotion request trace) = trace ++ events
    ∧ existsb is_complete events
      = match fst (RenderVideoCjs.renderVideo node remotion request trace) with
        | Returned _ => true
        | Threw _ => false
        end.
Proof.
  exists (events_of logs_cjs remotion (entryPoint_cjs node) request).
  rewrite renderVideo_cjs_run. split; [reflexivity |].
  unfold events_of, outcome_of, collaborators. simpl.
  destruct (Renderer.bundle remotion _) as [bundleLocation | e]; [| reflexivity].
  destruct (Renderer.selectComposition remotion _ _ _) as [composition | e];
    [| reflexivity].
  destruct (Renderer.renderMedia remotion _) as [reports outcome].
  simpl. rewrite existsb_app, progress_lines_no_complete.
  destruct outcome; reflexivity.
Qed.

Lemma Qfloor_unit (x : Q) : (0 <= x)%Q → (x < 1)%Q → Qfloor x = 0.
Proof.
  intros H0 H1. apply Z.le_antisymm.
  - assert (H : Qfloor x < 1); [| lia].
    rewrite Zlt_Qlt. eapply Qle_lt_trans; [apply Qfloor_le | exact H1].
  - change 0 with (Qfloor 0). apply Qfloor_resp_le, H0.
Qed.

Lemma rem_10_small (p : Q) : (0 <= p)%Q → (p < 10)%Q → (JS.rem p 10 == p)%Q.
Proof.
  intros H0 H10. unfold JS.rem.
  assert (Hq0 : (0 <= p / 10)%Q).
  { apply Qle_shift_div_l; lra. }
  assert (Hq1 : (p / 10 < 1)%Q).
  { apply Qlt_shift_div_r; lra. }
  apply Qle_bool_iff in Hq0 as Hb. rewrite Hb.
  rewrite (Qfloor_unit _ Hq0 Hq1). change (inject_Z 0) with 0%Q. ring.
Qed.

Lemma lt_proper (x x' y : Q) : (x == x')%Q → JS.lt x y = JS.lt x' y.
Proof.
  intros Hx. apply eq_true_iff_eq. rewrite !lt_true. now rewrite Hx.
Qed.

(** X12: in the CommonJS build a progress report between 0 and 1 is logged
    only while it is below 0.01 ("progress % 10" is the report itself): a
    report of one percent or more leaves the console as it is, and the few
    lines that are written show 0% or 1%. *)
Theorem onProgress_cjs_logs_below_one_percent job_id (progress : Q) trace :
  (0 <= progress)%Q → (progress <= 1)%Q →
  ((progress < 1 # 100)%Q →
   ∃ percent,
     RenderVideoCjs.onProgress job_id progress trace
     = (Returned tt, trace ++ [ConsoleLog (RenderProgress job_id percent)])
     ∧ 0 <= percent <= 1)
  ∧ ((1 # 100 <= progress)%Q →
     RenderVideoCjs.onProgress job_id progress trace = (Returned tt, trace)).
Proof.
  intros H0 H1. unfold RenderVideoCjs.onProgress.
  rewrite (lt_proper _ progress _ (rem_10_small progress H0 ltac:(lra))).
  split.
  - intros Hlt. apply lt_true in Hlt as Hb. rewrite Hb.
    eexists. split; [reflexivity |]. split.
    + apply Math_round_nonneg. lra.
    + unfold JS.Math_round.
      assert (H : Qfloor (progress * 100 + (1 # 2)) < 2); [| lia].
      rewrite Zlt_Qlt. eapply Qle_lt_trans; [apply Qfloor_le |].
      change (inject_Z 2) with 2%Q. lra.
  - intros Hge. apply lt_false in Hge as Hb. rewrite Hb. reflexivity.
Qed.

Lemma onProgress_cjs_logs_below_one_percent_witness :
  RenderVideoCjs.onProgress "j1" (1 # 2) [] = (Returned tt, [])
  ∧ ∃ percent,
      RenderVideoCjs.onProgress "j1" (1 # 200) []
      = (Returned tt, [ConsoleLog (RenderProgress "j1" percent)]).
Proof.
  split.
  - apply (onProgress_cjs_logs_below_one_percent "j1" (1 # 2) []); lra.
  - destruct (proj1 (onProgress_cjs_logs_below_one_percent "j1" (1 # 200) []
                       ltac:(lra) ltac:(lra)) ltac:(lra))
      as (percent & Hrun & _).
    exists percent. exact Hrun.
Defined.

End RenderTraceFacts.

Section RenderArithmeticFacts.
Import Effects RenderSpec.

Lemma returned_result node remotion request trace r :
  fst (RenderVideoCjs.renderVideo node remotion request trace) = Returned r →
  r = result_of request.
Proof.
  rewrite renderVideo_cjs_run. simpl. apply outcome_of_returned.
Qed.

Lemma sum_frames_fps_zero (fps : Q) (segments : list TimelineSegment.t) :
  (fps == 0)%Q → sum_frames fps segments = 0.
Proof.
  intros Hfps. induction segments as [| s rest IH]; simpl; [reflexivity |].
  rewrite IH, (Math_round_proper _ 0%Q); [reflexivity |].
  rewrite Hfps. ring.
Qed.

(** X15: at fps = 0 every segment rounds to 0 frames and the division is
    0 / 0: whatever the segments, a render that returns reports the duration
    NaN. *)
Theorem duration_at_fps_zero_is_NaN node remotion request trace r :
  (RenderRequest.fps request == 0)%Q →
  fst (RenderVideoCjs.renderVideo node remotion request trace) = Returned r →
  durationSeconds r = JS.NaN.
Proof.
  intros Hfps Hr. apply returned_result in Hr. subst r.
  unfold result_of. simpl. rewrite (sum_frames_fps_zero _ _ Hfps).
  unfold JS.div. rewrite (Qeq_eq_bool _ _ Hfps). reflexivity.
Qed.

Lemma duration_at_fps_zero_is_NaN_witness :
  durationSeconds (result_of (Samples.request 0 15 Samples.three_segments)) = JS.NaN.
Proof.
  apply (duration_at_fps_zero_is_NaN Samples.node Samples.remotion
           (Samples.request 0 15 Samples.three_segments) []).
  - reflexivity.
  - vm_compute. reflexivity.
Defined.

End RenderArithmeticFacts.

(** ** More on the /render endpoint *)

Section EndpointFacts.
Import Effects RenderSpec Server.

(** The whole run of the handler over the CommonJS renderVideo, for a body
    that passes the guard. *)
Lemma post_render_run node remotion body trace :
  missing_required body = false →
  let request := as_RenderRequest body in
  let entryPoint := entryPoint_cjs node in
  post_render (RenderVideoCjs.renderVideo node remotion) body trace
  = match collaborators remotion entryPoint request with
    | Returned _ =>
        (Returned (ok (result_of request)),
         trace ++ [ConsoleLog (ReceivedRenderRequest (RenderRequest.job_id request))]
         ++ events_of logs_cjs remotion entryPoint request)
    | Threw e =>
        (Returned (server_error e),
         trace ++ [ConsoleLog (ReceivedRenderRequest (RenderRequest.job_id request))]
         ++ events_of logs_cjs remotion entryPoint request
         ++ [ConsoleError (RenderError (RenderRequest.job_id request) e)])
    end.
Proof.
  intros Hguard request entryPoint.
  pose proof (post_render_cases (RenderVideoCjs.renderVideo node remotion) body trace) as H.
  rewrite Hguard in H. cbv zeta in H.
  rewrite renderVideo_cjs_run in H. fold request entryPoint in H.
  unfold outcome_of in H.
  destruct (collaborators remotion entryPoint request) as [[] | e];
    rewrite H, <- ?app_assoc; reflexivity.
Qed.

(** X17: an empty segments array passes the guard (an array is truthy): the
    render is attempted, and when the collaborators succeed the reply is a
    success whose duration is 0 / fps. *)
Theorem empty_segments_are_rendered node remotion body trace :
  JS.truthy_opt (job_id body) = true →
  JS.truthy_opt (output_path body) = true →
  segments body = Some [] →
  ∃ reply events,
    post_render (RenderVideoCjs.renderVideo node remotion) body trace
    = (Returned reply, trace ++ events)
    ∧ status reply ≠ 400
    ∧ CallBundle (entryPoint_cjs node) ∈ events
    ∧ (collaborators remotion (entryPoint_cjs node) (as_RenderRequest body) = Returned tt →
       RenderResponse.success (json reply) = true
       ∧ RenderResponse.duration_seconds (json reply) = Some (JS.div 0 (fps body))).
Proof.
  intros Hjob Hout Hsegs.
  assert (Hguard : missing_required body = false).
  { unfold missing_required. rewrite Hjob, Hout, Hsegs. reflexivity. }
  rewrite (post_render_run node remotion body trace Hguard).
  assert (Hcall : ∀ tail, CallBundle (entryPoint_cjs node)
                    ∈ [ConsoleLog (ReceivedRenderRequest
                                     (RenderRequest.job_id (as_RenderRequest body)))]
                      ++ events_of logs_cjs remotion (entryPoint_cjs node)
                           (as_RenderRequest body) ++ tail).
  { intros tail. unfold events_of. simpl. do 3 apply list_elem_of_further.
    apply list_elem_of_here. }
  destruct (collaborators remotion (entryPoint_cjs node) (as_RenderRequest body))
    as [[] | e].
  - eexists _, _. split; [reflexivity |]. split; [simpl; lia |].
    split; [rewrite <- (app_nil_r (events_of _ _ _ _)); apply Hcall |].
    intros _. split; [reflexivity |].
    simpl. unfold as_RenderRequest. simpl. rewrite Hsegs. reflexivity.
  - eexists _, _. split; [reflexivity |]. split; [simpl; lia |].
    split; [apply Hcall | discriminate].
Qed.

Lemma empty_segments_are_rendered_witness :
  ∃ reply events,
    post_render (RenderVideoCjs.renderVideo Samples.node Samples.remotion)
      (Samples.body (Some "j1") 30 (Some [])) []
    = (Returned reply, [] ++ events)
    ∧ RenderResponse.duration_seconds (json reply) = Some (JS.div 0 30).
Proof.
  destruct (empty_segments_are_rendered Samples.node Samples.remotion
              (Samples.body (Some "j1") 30 (Some [])) [] eq_refl eq_refl eq_refl)
    as (reply & events & Hrun & _ & _ & Hok).
  exists reply, events. split; [exact Hrun |].
  apply Hok. vm_compute. reflexivity.
Defined.

End EndpointFacts.

(** ** More on the migrations *)

Section MigrationFacts.
Import Sql Migrations.

Lemma extends_refl (db : Database) : extends db db.
Proof.
  repeat split; auto. intros table columns H. exists []. now rewrite app_nil_r.
Qed.

Lemma extends_trans (a b c : Database) : extends a b → extends b c → extends a c.
Proof.
  intros (Ht & Hc & Hi) (Ht' & Hc' & Hi'). repeat split; auto.
  intros table columns H.
  destruct (Hc _ _ H) as (added & Hb).
  destruct (Hc' _ _ Hb) as (added' & Hcc).
  exists (added ++ added'). now rewrite app_assoc.
Qed.

Lemma has_column_app (columns added : list Column) (name : string) :
  has_column columns name = true → has_column (columns ++ added) name = true.
Proof.
  unfold has_column. rewrite existsb_app. intros ->. reflexivity.
Qed.

Lemma create_enum_rerunnable (name : string) (labels : list string) :
  Rerunnable (create_enum_unless_duplicate name labels) (type_exists name).
Proof.
  split; unfold create_enum_unless_duplicate, type_exists.
  - intros db db' H.
    destruct (types db !! name) as [old |] eqn:E.
    + injection H as <-. split; [rewrite E; eauto | apply extends_refl].
    + injection H as <-. simpl. split.
      * rewrite lookup_insert_eq. eauto.
      * repeat split; simpl; auto.
        -- intros n l Hn. rewrite lookup_insert_ne; [exact Hn | congruence].
        -- intros table columns Hc. exists []. now rewrite app_nil_r.
  - intros db [old E]. rewrite E. reflexivity.
  - intros db db' [old E] (Ht & _). rewrite (Ht _ _ E). eauto.
Qed.

Lemma create_table_rerunnable (name : string) (columns : list Column) :
  Rerunnable (create_table_if_not_exists name columns) (table_exists name).
Proof.
  split; unfold create_table_if_not_exists, table_exists.
  - intros db db' H.
    destruct (tables db !! name) as [old |] eqn:E.
    + injection H as <-. split; [rewrite E; eauto | apply extends_refl].
    + destruct (forallb (column_ok db) columns); [| discriminate].
      injection H as <-. simpl. split.
      * rewrite lookup_insert_eq. eauto.
      * repeat split; simpl; auto.
        intros table cols Hc. exists [].
        rewrite lookup_insert_ne; [now rewrite app_nil_r | congruence].
  - intros db [old E]. rewrite E. reflexivity.
  - intros db db' [old E] (_ & Hc & _). destruct (Hc _ _ E) as (added & ->). eauto.
Qed.

Lemma add_column_rerunnable (table : string) (c : Column) :
  Rerunnable (add_column_if_not_exists table c) (column_exists table (column_name c)).
Proof.
  split; unfold add_column_if_not_exists, column_exists.
  - intros db db' H.
    destruct (tables db !! table) as [columns |] eqn:E; [| discriminate].
    destruct (has_column columns (column_name c)) eqn:Hhas.
    + injection H as <-. split; [eauto | apply extends_refl].
    + destruct (column_ok db c); [| discriminate].
      injection H as <-. simpl. split.
      * exists (columns ++ [c]). rewrite lookup_insert_eq. split; [reflexivity |].
        unfold has_column. rewrite existsb_app. simpl.
        rewrite String.eqb_refl. apply orb_true_iff. right. reflexivity.
      * repeat split; simpl; auto.
        intros t cols Hc.
        destruct (decide (table = t)) as [<- | Hne].
        -- rewrite lookup_insert_eq. rewrite E in Hc. injection Hc as <-. eauto.
        -- rewrite lookup_insert_ne by exact Hne. exists []. now rewrite app_nil_r.
  - intros db (columns & E & Hhas). rewrite E, Hhas. reflexivity.
  - intros db db' (columns & E & Hhas) (_ & Hc & _).
    destruct (Hc _ _ E) as (added & E'). exists (columns ++ added).
    split; [exact E' | now apply has_column_app].
Qed.

Lemma create_index_rerunnable (name : string) (i : Index) :
  Rerunnable (create_index_if_not_exists name i) (index_exists name).
Proof.
  split; unfold create_index_if_not_exists, index_exists.
  - intros db db' H.
    destruct (indexes db !! name) as [old |] eqn:E.
    + injection H as <-. split; [rewrite E; eauto | apply extends_refl].
    + destruct (tables db !! index_table i) as [columns |]; [| discriminate].
      destruct (has_column columns (index_column i)); [| discriminate].
      injection H as <-. simpl. split.
      * rewrite lookup_insert_eq. eauto.
      * repeat split; simpl; auto.
        -- intros table cols Hc. exists []. now rewrite app_nil_r.
        -- intros n j Hn. rewrite lookup_insert_ne; [exact Hn | congruence].
  - intros db [old E]. rewrite E. reflexivity.
  - intros db db' [old E] (_ & _ & Hi). rewrite (Hi _ _ E). eauto.
Qed.

(** A script of statements that can be run again can be run again. *)
Lemma script_rerunnable (statements : list Statement) (dones : list (Database → Prop)) :
  Forall2 Rerunnable statements dones →
  Rerunnable (script statements) (fun db => Forall (fun done => done db) dones).
Proof.
  induction 1 as [| s done statements dones Hs _ IH].
  - split.
    + intros db db' [= <-]. split; [constructor | apply extends_refl].
    + reflexivity.
    + constructor.
  - destruct Hs as [Hs1 Hs2 Hs3]. destruct IH as [IH1 IH2 IH3]. split.
    + intros db db' H. simpl in H.
      destruct (s db) as [db1 |] eqn:E; [| discriminate]. simpl in H.
      destruct (Hs1 _ _ E) as [Hdone Hext].
      destruct (IH1 _ _ H) as [Hdones Hext'].
      split; [| eapply extends_trans; eauto].
      constructor; [eapply Hs3; eauto | exact Hdones].
    + intros db Hall. inversion Hall as [| ? ? Hd Hds]; subst. simpl.
      rewrite (Hs2 _ Hd). simpl. apply IH2, Hds.
    + intros db db' Hall Hext. inversion Hall as [| ? ? Hd Hds]; subst.
      constructor; [eapply Hs3; eauto | eapply IH3; eauto].
Qed.

Ltac rerunnable :=
  lazymatch goal with
  | |- Forall2 _ [] _ => constructor
  | |- Forall2 _ (_ :: _) _ => constructor; rerunnable
  | |- Rerunnable (script _) _ => apply script_rerunnable; rerunnable
  | |- Rerunnable (create_enum_unless_duplicate _ _) _ => apply create_enum_rerunnable
  | |- Rerunnable (create_table_if_not_exists _ _) _ => apply create_table_rerunnable
  | |- Rerunnable (add_column_if_not_exists _ _) _ => apply add_column_rerunnable
  | |- Rerunnable (create_index_if_not_exists _ _) _ => apply create_index_rerunnable
  end.

Lemma migrate_rerunnable :
  ∃ done, Rerunnable migrate done ∧ ∀ db, done db → migrated db.
Proof.
  eexists. split.
  - unfold migrate, migration_001, migration_002, migration_003. rerunnable.
  - intros db H.
    repeat (rewrite Forall_cons in H; simpl in H).
    unfold migrated. tauto.
Qed.



(** X19: the migrations can be run again: on the database a successful run
    leaves, a second run succeeds and changes nothing. *)
Theorem migrate_twice (db db' : Database) :
  migrate db = Some db' → migrate db' = Some db'.
Proof.
  intros H. destruct migrate_rerunnable as (done & Hr & _).
  apply (nothing_to_do _ _ Hr), (establishes _ _ Hr _ _ H).
Qed.

Lemma migrate_twice_witness :
  ∃ db', migrate empty_database = Some db' ∧ migrate db' = Some db'.
Proof.
  destruct (migrate empty_database) as [db' |] eqn:E; [| vm_compute in E; discriminate].
  exists db'. split; [reflexivity |]. apply (migrate_twice _ _ E).
Defined.

(** X20: whatever database they start from, once the three migrations have
    run the two enum types, the jobs table, the two indexes and the columns
    stage_started_at, stage_durations and cancel_requested exist. *)
Theorem migrate_establishes (db db' : Database) :
  migrate db = Some db' →
  is_Some (types db' !! "job_status")
  ∧ is_Some (types db' !! "job_stage")
  ∧ is_Some (indexes db' !! "idx_jobs_status")
  ∧ is_Some (indexes db' !! "idx_jobs_created_at")
  ∧ ∃ columns, tables db' !! "jobs" = Some columns
      ∧ has_column columns "stage_started_at" = true
      ∧ has_column columns "stage_durations" = true
      ∧ has_column columns "cancel_requested" = true.
Proof.
  intros H. destruct migrate_rerunnable as (done & Hr & Hdone).
  destruct (Hdone db' (proj1 (establishes _ _ Hr _ _ H)))
    as (H1 & H2 & _ & H4 & H5 & (c1 & E1 & Hc1) & (c2 & E2 & Hc2) & (c3 & E3 & Hc3)).
  repeat (split; [assumption |]).
  exists c1. rewrite E1 in E2, E3. injection E2 as <-. injection E3 as <-. auto.
Qed.

Lemma migrate_establishes_witness :
  ∃ db' columns, migrate empty_database = Some db'
    ∧ tables db' !! "jobs" = Some columns
    ∧ has_column columns "cancel_requested" = true.
Proof.
  destruct (migrate empty_database) as [db' |] eqn:E; [| vm_compute in E; discriminate].
  destruct (migrate_establishes _ _ E) as (_ & _ & _ & _ & columns & Hc & _ & _ & H3).
  exists db', columns. auto.
Defined.

Lemma script_cons (s : Statement) (rest : list Statement) (db : Database) :
  script (s :: rest) db = s db ≫= script rest.
Proof. reflexivity. Qed.

Lemma bind_some {A B : Type} (x : A) (f : A → option B) : Some x ≫= f = f x.
Proof. reflexivity. Qed.

Lemma script_extends (statements : list Statement) (dones : list (Database → Prop))
    (db db' : Database) :
  Forall2 Rerunnable statements dones → script statements db = Some db' → extends db db'.
Proof.
  intros Hr H. apply (establishes _ _ (script_rerunnable _ _ Hr) _ _ H).
Qed.

(** X21: however the database was before, after the migrations the status
    enumeration has the labels it had if it existed, and pending, processing,
    completed, failed if it did not: the migrations never add 'cancelled' to
    it and never take it away. *)
Theorem job_status_labels_after_migrate (db db' : Database) :
  migrate db = Some db' →
  types db' !! "job_status"
  = Some (default ["pending"; "processing"; "completed"; "failed"]
            (types db !! "job_status")).
Proof.
  intros H. unfold migrate in H. rewrite script_cons in H.
  destruct (migration_001 db) as [db1 |] eqn:E1; [| discriminate].
  rewrite bind_some in H.
  assert (Hext' : extends db1 db').
  { eapply script_extends; [| exact H].
    unfold migration_002, migration_003. rerunnable. }
  unfold migration_001 in E1. rewrite script_cons in E1.
  destruct (create_enum_unless_duplicate "job_status"
              ["pending"; "processing"; "completed"; "failed"] db) as [da |] eqn:Ea;
    [| discriminate].
  rewrite bind_some in E1.
  assert (Hext : extends da db1).
  { eapply script_extends; [| exact E1]. rerunnable. }
  destruct Hext as (Ht & _). destruct Hext' as (Ht' & _).
  apply Ht', Ht.
  unfold create_enum_unless_duplicate in Ea.
  destruct (types db !! "job_status") as [old |] eqn:Eold; injection Ea as <-; simpl.
  - exact Eold.
  - apply lookup_insert_eq.
Qed.

Lemma job_status_labels_after_migrate_witness :
  ∃ db', migrate empty_database = Some db'
    ∧ types db' !! "job_status" = Some ["pending"; "processing"; "completed"; "failed"].
Proof.
  destruct (migrate empty_database) as [db' |] eqn:E; [| vm_compute in E; discriminate].
  exists db'. split; [reflexivity |].
  rewrite (job_status_labels_after_migrate _ _ E). reflexivity.
Defined.

Lemma add_plain_column_runs (table : string) (c : Column) (db : Database) :
  (∀ type_name, data_type c ≠ EnumType type_name) →
  table_exists table db →
  ∃ db', add_column_if_not_exists table c db = Some db' ∧ table_exists table db'.
Proof.
  intros Hplain [columns E]. unfold add_column_if_not_exists, table_exists. rewrite E.
  destruct (has_column columns (column_name c)).
  - exists db. rewrite E. eauto.
  - assert (Hok : column_ok db c = true).
    { unfold column_ok. destruct (data_type c); try reflexivity.
      exfalso. eapply Hplain. reflexivity. }
    rewrite Hok. eexists. split; [reflexivity |]. simpl.
    rewrite lookup_insert_eq. eauto.
Qed.

Lemma add_column_needs_table (table : string) (c : Column) (db : Database) :
  tables db !! table = None → add_column_if_not_exists table c db = None.
Proof.
  intros E. unfold add_column_if_not_exists. rewrite E. reflexivity.
Qed.

(** X22: the second and the third migration succeed exactly on a database
    that has a jobs table: run before the first one they fail, and after it
    they cannot fail. *)
Theorem later_migrations_need_jobs_table (db : Database) :
  (is_Some (migration_002 db) ↔ is_Some (tables db !! "jobs"))
  ∧ (is_Some (migration_003 db) ↔ is_Some (tables db !! "jobs")).
Proof.
  split; split.
  - intros Hrun. destruct (tables db !! "jobs") eqn:E; [eauto |].
    unfold migration_002 in Hrun. rewrite script_cons in Hrun.
    rewrite (add_column_needs_table _ _ _ E) in Hrun. destruct Hrun; discriminate.
  - intros Htable. unfold migration_002. rewrite script_cons.
    destruct (add_plain_column_runs "jobs" (column "stage_started_at" TIMESTAMP) db)
      as (db1 & -> & Htable1); [discriminate | exact Htable |].
    rewrite bind_some, script_cons.
    destruct (add_plain_column_runs "jobs"
                (DEFAULT (StringLiteral "{}") (column "stage_durations" JSONB)) db1)
      as (db2 & -> & _); [discriminate | exact Htable1 |].
    simpl. eauto.
  - intros Hrun. destruct (tables db !! "jobs") eqn:E; [eauto |].
    unfold migration_003 in Hrun. rewrite script_cons in Hrun.
    rewrite (add_column_needs_table _ _ _ E) in Hrun. destruct Hrun; discriminate.
  - intros Htable. unfold migration_003. rewrite script_cons.
    destruct (add_plain_column_runs "jobs"
                (DEFAULT (IntegerLiteral 0) (column "cancel_requested" INTEGER)) db)
      as (db1 & -> & _); [discriminate | exact Htable |].
    simpl. eauto.
Qed.

Lemma later_migrations_need_jobs_table_witness :
  migration_002 empty_database = None ∧ migration_003 empty_database = None.
Proof.
  destruct (later_migrations_need_jobs_table empty_database) as [[H2 _] [H3 _]].
  split.
  - destruct (migration_002 empty_database) eqn:E; [| reflexivity].
    destruct (H2 (mk_is_Some _ _ eq_refl)) as [? Habs]. vm_compute in Habs. discriminate.
  - destruct (migration_003 empty_database) eqn:E; [| reflexivity].
    destruct (H3 (mk_is_Some _ _ eq_refl)) as [? Habs]. vm_compute in Habs. discriminate.
Defined.

End MigrationFacts.

(** ** The renderer on binary64 numbers *)

Section Binary64Facts.
Import PrimFloat Effects Binary64.

(** Where the exact rationals and the code's numbers part: a segment of
    2.05 seconds at 30 frames per second is 61 frames in the code, since the
    product is just below 61.5, and 62 frames in exact arithmetic. *)
Example frames_of_2_05_seconds :
  B64.Math_round (2.05 * 30)%float = 61%float
  ∧ JS.Math_round ((205 # 100) * 30) = 62.
Proof. split; vm_compute; reflexivity. Qed.

Example Math_round_ties_and_signs :
  B64.Math_round 2.5 = 3%float
  ∧ B64.Math_round (-2.5) = (-2)%float
  ∧ B64.Math_round 0.49999999999999994 = 0%float
  ∧ B64.Math_round (-0.2) = (-0)%float
  ∧ B64.Math_round (-0.5) = (-0)%float
  ∧ B64.Math_round (-0) = (-0)%float
  ∧ (1 / B64.Math_round (-0) = PrimFloat.neg_infinity)%float
  ∧ B64.Math_round 0.3 = 0%float
  ∧ B64.Math_round (-1.5) = (-1)%float
  ∧ B64.Math_round 4503599627370495.5 = 4503599627370496%float
  ∧ B64.Math_round 4503599627370497 = 4503599627370497%float
  ∧ B64.Math_round PrimFloat.nan = PrimFloat.nan
  ∧ B64.Math_round (1e308 * 30)%float = PrimFloat.infinity.
Proof. repeat split; vm_compute; reflexivity. Qed.

Lemma for_each_onProgress_returns job_id (reports : list float) :
  ∀ trace, ∃ trace',
    Trace.for_each (onProgress job_id) reports trace = (Returned tt, trace').
Proof.
  induction reports as [| p rest IH]; intros trace; simpl.
  - eexists. reflexivity.
  - unfold mbind, Trace.IO_bind, onProgress.
    destruct (B64.rem_10_below p _); simpl; apply IH.
Qed.

Lemma total_frames_durations (fps : float) (segments : list TimelineSegment.t) :
  total_frames fps segments
  = frames_of_durations fps (TimelineSegment.duration_seconds <$> segments).
Proof.
  unfold total_frames, frames_of_durations. generalize 0%float.
  induction segments as [| s rest IH]; intros total; simpl; [reflexivity |]. apply IH.
Qed.

(** The outcome of renderVideo on binary64 numbers. *)
Lemma renderVideo_binary64_outcome node remotion request trace :
  ∃ trace',
    renderVideo node remotion request trace
    = (match collaborators remotion (entryPoint node) request with
       | Returned _ =>
           Returned
             {| outputPath := RenderRequest.output_path request;
                durationSeconds :=
                  (total_frames (RenderRequest.fps request) (RenderRequest.segments request)
                   / RenderRequest.fps request)%float |}
       | Threw e => Threw e
       end, trace').
Proof.
  unfold renderVideo, collaborators, entryPoint, options_of, inputProps_of, total_frames,
    JS.reduce.
  unfold mbind, Trace.IO_bind, console_log, Trace.emit, Trace.await, Trace.settle, mret,
    Trace.IO_ret; simpl.
  destruct (Renderer.bundle remotion _) as [bundleLocation | e]; [| eexists; reflexivity].
  destruct (Renderer.selectComposition remotion _ _ _) as [composition | e];
    [| eexists; reflexivity].
  destruct (Renderer.renderMedia remotion _) as [reports outcome]. simpl.
  unfold mbind, Trace.IO_bind, console_log, Trace.emit, Trace.settle, mret, Trace.IO_ret;
    simpl.
  match goal with
  | |- context [Trace.for_each ?f ?l ?t] =>
      destruct (for_each_onProgress_returns (RenderRequest.job_id request) l t) as (t1 & ->)
  end.
  destruct outcome as [[] | e]; eexists; reflexivity.
Qed.

Lemma fifteen_up_to_1000 : forallb fifteen_at (seq 1 1000) = true.
Proof. vm_compute. reflexivity. Qed.

(** C4 (as amended): renderVideo returns exactly when its three
    collaborator calls succeed, and then durationSeconds is the sum over the
    segments, taken from 0 in their order, of round(duration_seconds * fps),
    divided by fps, all in binary64 arithmetic; for three segments of 5, 4
    and 6 seconds at a whole number of frames per second between 1 and 1000
    that is 15. *)
Theorem renderVideo_duration_binary64 node remotion request trace :
  (∃ trace',
     renderVideo node remotion request trace
     = (match collaborators remotion (entryPoint node) request with
        | Returned _ =>
            Returned
              {| outputPath := RenderRequest.output_path request;
                 durationSeconds :=
                   (fold_left
                      (fun total seg =>
                         total + B64.Math_round (TimelineSegment.duration_seconds seg
                                                 * RenderRequest.fps request))
                      (RenderRequest.segments request) 0
                    / RenderRequest.fps request)%float |}
        | Threw e => Threw e
        end, trace'))
  ∧ ∀ (n : nat) r,
      (1 <= n <= 1000)%nat →
      RenderRequest.fps request = B64.of_nat n →
      TimelineSegment.duration_seconds <$> RenderRequest.segments request
      = [5; 4; 6]%float →
      fst (renderVideo node remotion request trace) = Returned r →
      durationSeconds r = 15%float.
Proof.
  destruct (renderVideo_binary64_outcome node remotion request trace) as (trace' & Hrun).
  split; [exists trace'; exact Hrun |].
  intros n r Hn Hfps Hdurations Hr.
  rewrite Hrun in Hr. simpl in Hr.
  destruct (collaborators remotion (entryPoint node) request); [| discriminate].
  injection Hr as <-. simpl.
  rewrite total_frames_durations, Hdurations, Hfps.
  apply FloatAxioms.Leibniz.eqb_spec.
  pose proof fifteen_up_to_1000 as Hall. rewrite forallb_forall in Hall.
  apply (Hall n). apply in_seq. lia.
Qed.

Lemma renderVideo_duration_binary64_witness :
  ∃ r, fst (renderVideo Samples.node remotion (request 30 three_segments) []) = Returned r
    ∧ durationSeconds r = 15%float.
Proof.
  eexists. split; [vm_compute; reflexivity |].
  apply (proj2 (renderVideo_duration_binary64 Samples.node remotion
                  (request 30 three_segments) []) 30%nat).
  - lia.
  - reflexivity.
  - reflexivity.
  - vm_compute. reflexivity.
Defined.

(** C4 as stated does not hold: at half a frame per second the three
    segments of 5, 4 and 6 seconds take round(2.5) + round(2) + round(3)
    = 8 frames, and renderVideo returns 8 / 0.5 = 16 seconds. *)
Lemma renderVideo_duration_16_at_half_fps :
  ¬ (∀ node remotion request trace r,
       TimelineSegment.duration_seconds <$> RenderRequest.segments request
       = [5; 4; 6]%float →
       fst (renderVideo node remotion request trace) = Returned r →
       durationSeconds r = 15%float).
Proof.
  intros H.
  specialize (H Samples.node remotion (request 0.5 three_segments) []
                {| outputPath := "jobs/j1/video.mp4"; durationSeconds := 16 |}
                eq_refl).
  assert (Hrun : fst (renderVideo Samples.node remotion (request 0.5 three_segments) [])
                 = Returned {| outputPath := "jobs/j1/video.mp4"; durationSeconds := 16 |})
    by (vm_compute; reflexivity).
  specialize (H Hrun). simpl in H.
  apply (f_equal (fun x => PrimFloat.eqb x 15)) in H. vm_compute in H. discriminate.
Qed.

(** Beyond whole frame rates of ordinary size the 15 is lost as well: the
    quotient is rounded at 9007199254741004 frames per second. *)
Example renderVideo_duration_at_a_huge_fps :
  (frames_of_durations 9007199254741004 [5; 4; 6] / 9007199254741004)%float
  = 15.000000000000002%float.
Proof. vm_compute. reflexivity. Qed.

(** C1, at a failing input: a render at 60 frames per second of segments of
    5, 4 and 6 seconds.  renderVideo hands renderMedia a composition of 900
    frames at 60 frames per second, its frame counts being
    round(duration_seconds * 60); the composition lays the segments out with
    its own constant of 30, in Sequences of 150, 120 and 180 frames that end
    on frame 450: the segment of 5 seconds occupies 150 frames, 2.5 seconds
    of the video, and not round(5 * 60) = 300. *)
Theorem sequence_frames_ignore_render_fps :
  compositions_rendered
    (snd (renderVideo Samples.node remotion (request 60 three_segments) []))
  = [ {| Renderer.id := "TeacherTrainingVideo"; Renderer.durationInFrames := 900;
         Renderer.fps := 60; Renderer.width := 1920; Renderer.height := 1080 |} ]
  ∧ (fun sq => (Composition.from sq, Composition.durationInFrames sq))
    <$> Composition.TeacherTrainingVideo (inputProps_of (request 60 three_segments))
    = [ (0, 150); (150, 120); (270, 180) ]%float
  ∧ (fun seg => B64.Math_round (TimelineSegment.duration_seconds seg * 60)%float)
    <$> three_segments
    = [ 300; 240; 360 ]%float.
Proof. repeat split; vm_compute; reflexivity. Qed.

End Binary64Facts.

(** ** The /render endpoint over any JSON body *)

Section WireFacts.
Import PrimFloat Effects Json Endpoint.









End WireFacts.

(** ** The stages downstream of the timeline *)

Section DownstreamFacts.
Import Effects RenderSpec Server Orchestrator Pipeline.












(** The failing timeline passes the validation of the generate stage, which
    asks for increasing start times and not for consistent ones. *)
Example inconsistent_timeline_is_valid :
  Composition.starts_consistent 0 Samples.inconsistent_segments = false
  ∧ validate Samples.band Samples.inconsistent_segments = true.
Proof. split; vm_compute; reflexivity. Qed.

(** The failing timeline in the composition: the second segment is placed
    on frame 150, which its first segment's duration gives, and not on frame
    3000, which its start_time_seconds would give. *)
Example inconsistent_timeline_layout :
  Composition.from <$> Composition.TeacherTrainingVideo
                         (Samples.props Samples.inconsistent_segments)
  = [0; 150]
  ∧ (fun segment =>
       JS.Math_round (TimelineSegment.start_time_seconds segment * Composition.fps))
    <$> Samples.inconsistent_segments
    = [0; 3000].
Proof. split; vm_compute; reflexivity. Qed.

End DownstreamFacts.
